(** * Account subsystem: models and views

    A shallow embedding of [account/models.py] and [account/views.py].

    The relational tables are lists of rows, the ORM calls are functions on
    them, and a view is a computation in a small state-and-exception monad
    whose state is the committed database together with the notification
    sink.  Everything the views consume from outside the two files (password
    hasher, token signer, clock, OTP generator, mail transport, the outcome
    of each database write) is a field of the record [World]. *)

From Stdlib Require Import ZArith List String Bool Lia.
Import ListNotations.
Open Scope string_scope.
Open Scope Z_scope.

Set Implicit Arguments.

(** ** Python values and dictionaries *)

Inductive value : Type :=
| VStr (s : string)
| VInt (z : Z)
| VBool (b : bool)
| VNone.

(** A [dict] keeps insertion order; assigning to a key that is present
    overwrites its value in place, as a Python dict does. *)
Definition dict := list (string * value).

Fixpoint dict_get (k : string) (d : dict) : option value :=
  match d with
  | [] => None
  | (k', v) :: d' => if String.eqb k k' then Some v else dict_get k d'
  end.

Fixpoint dict_set (k : string) (v : value) (d : dict) : dict :=
  match d with
  | [] => [(k, v)]
  | (k', v') :: d' =>
      if String.eqb k k' then (k, v) :: d' else (k', v') :: dict_set k v d'
  end.

(** [d.update(other)] *)
Definition dict_update (d other : dict) : dict :=
  fold_left (fun acc kv => dict_set (fst kv) (snd kv) acc) other d.

(** ** Exceptions and outcomes *)

Inductive exn : Type :=
| DoesNotExist
| MultipleObjectsReturned
| DatabaseError
| ValueError (msg : string)
| ValidationError (errors : dict)
| NotAuthenticated.

Inductive result (A : Type) : Type :=
| Return (a : A)
| Raise (e : exn).
Arguments Return {A} a.
Arguments Raise {A} e.

(** ** account/models.py *)

(** Timestamps and durations are integers counting microseconds, the
    resolution of Python's [datetime] and [timedelta]. *)
Definition datetime := Z.
Definition timedelta := Z.

Module CustomUser.
Record t : Type := {
  id : Z;
  password : string;
  is_superuser : bool;
  email : string;
  otp : option Z;
  first_name : string;
  last_name : string;
  business_name : option string;
  individual_url : option string;
  business : option bool;
  individual : option bool;
  email_verified : bool;
  accepted_terms : bool;
  is_active : bool;
  is_staff : bool;
  created_at : datetime;
  updated_at : datetime
}.

Definition with_password (p : string) (u : t) : t :=
  {| id := id u; password := p; is_superuser := is_superuser u;
     email := email u; otp := otp u; first_name := first_name u;
     last_name := last_name u; business_name := business_name u;
     individual_url := individual_url u; business := business u;
     individual := individual u; email_verified := email_verified u;
     accepted_terms := accepted_terms u; is_active := is_active u;
     is_staff := is_staff u; created_at := created_at u;
     updated_at := updated_at u |}.

Definition with_email_verified (b : bool) (u : t) : t :=
  {| id := id u; password := password u; is_superuser := is_superuser u;
     email := email u; otp := otp u; first_name := first_name u;
     last_name := last_name u; business_name := business_name u;
     individual_url := individual_url u; business := business u;
     individual := individual u; email_verified := b;
     accepted_terms := accepted_terms u; is_active := is_active u;
     is_staff := is_staff u; created_at := created_at u;
     updated_at := updated_at u |}.

(** The value [save()] writes: every field as it stands, with the
    [auto_now] column set to the current time. *)
Definition touched (now : datetime) (u : t) : t :=
  {| id := id u; password := password u; is_superuser := is_superuser u;
     email := email u; otp := otp u; first_name := first_name u;
     last_name := last_name u; business_name := business_name u;
     individual_url := individual_url u; business := business u;
     individual := individual u; email_verified := email_verified u;
     accepted_terms := accepted_terms u; is_active := is_active u;
     is_staff := is_staff u; created_at := created_at u;
     updated_at := now |}.
End CustomUser.

Module Token.
Record t : Type := {
  id : Z;
  user_id : Z;
  access : string;
  refresh : string;
  created_at : datetime;
  updated_at : datetime
}.

Definition with_pair (a r : string) (k : t) : t :=
  {| id := id k; user_id := user_id k; access := a; refresh := r;
     created_at := created_at k; updated_at := updated_at k |}.

Definition touched (now : datetime) (k : t) : t :=
  {| id := id k; user_id := user_id k; access := access k;
     refresh := refresh k; created_at := created_at k; updated_at := now |}.
End Token.

Module OTP.
Record t : Type := {
  id : Z;
  user_id : Z;
  generated_otp : option Z;
  created_at : datetime;
  updated_at : datetime
}.

Definition with_generated_otp (o : option Z) (r : t) : t :=
  {| id := id r; user_id := user_id r; generated_otp := o;
     created_at := created_at r; updated_at := updated_at r |}.

Definition touched (now : datetime) (r : t) : t :=
  {| id := id r; user_id := user_id r; generated_otp := generated_otp r;
     created_at := created_at r; updated_at := now |}.
End OTP.

(** The committed contents of the three tables, and the sequences that hand
    out primary keys. *)
Record DB : Type := {
  users : list CustomUser.t;
  tokens : list Token.t;
  otps : list OTP.t;
  user_seq : Z;
  token_seq : Z
}.

Definition with_users (us : list CustomUser.t) (d : DB) : DB :=
  {| users := us; tokens := tokens d; otps := otps d;
     user_seq := user_seq d; token_seq := token_seq d |}.

Definition with_tokens (ts : list Token.t) (d : DB) : DB :=
  {| users := users d; tokens := ts; otps := otps d;
     user_seq := user_seq d; token_seq := token_seq d |}.

Definition with_otps (os : list OTP.t) (d : DB) : DB :=
  {| users := users d; tokens := tokens d; otps := os;
     user_seq := user_seq d; token_seq := token_seq d |}.

(** ** The world outside the two files *)

Record World : Type := {
  (** [timezone.now()] *)
  now : datetime;
  (** Django's password hasher behind [set_password] / [check_password];
      the second argument of [check_password] is the stored value. *)
  make_password : string -> string;
  check_password : string -> string -> bool;
  (** [BaseUserManager.normalize_email] *)
  normalize_email : string -> string;
  (** [CustomAuthentication] (account/authentication.py) *)
  get_access_token : list (string * Z) -> string;
  get_refresh_token : string;
  verify_token : string -> bool;
  (** account/utils.py *)
  generate_otp : Z;
  (** [send_email subject body from recipients]: [None] when the message was
      handed over, [Some e] when the call raised an exception printing as
      [e]. *)
  send_email : string -> string -> string -> list string -> option string;
  render_to_string : string -> dict -> string;
  DEFAULT_FROM_EMAIL : string;
  (** Whether the database rejects the n-th write statement of the request
      (lost connection, deadlock, violated constraint). *)
  db_fault : nat -> bool
}.

(** ** The view monad *)

Record Event : Type := {
  ev_user : option Z;
  ev_kind : string;
  ev_message : string
}.

Record store : Type := {
  db : DB;
  writes : nat;
  events : list Event
}.

Definition M (A : Type) : Type := store -> result A * store.

Definition ret {A} (a : A) : M A := fun s => (Return a, s).

Definition raise {A} (e : exn) : M A := fun s => (Raise e, s).

Definition bind {A B} (m : M A) (k : A -> M B) : M B :=
  fun s =>
    match m s with
    | (Return a, s') => k a s'
    | (Raise e, s') => (Raise e, s')
    end.

Notation "x <- m ;; k" := (bind m (fun x => k))
  (at level 61, m at next level, right associativity).
Notation "m ;;; k" := (bind m (fun _ => k))
  (at level 61, right associativity).

(** A read of the committed tables. *)
Definition query {A} (f : DB -> A) : M A := fun s => (Return (f (db s)), s).

(** One write statement.  Outside [atomic] Django runs in autocommit mode
    (its default; the views ask for nothing else), so an accepted statement
    is committed at once; a rejected one raises and leaves the tables as
    they were. *)
Definition execute (w : World) (f : DB -> DB) : M unit :=
  fun s =>
    if db_fault w (writes s)
    then (Raise DatabaseError,
          {| db := db s; writes := S (writes s); events := events s |})
    else (Return tt,
          {| db := f (db s); writes := S (writes s); events := events s |}).

(** [with transaction.atomic(): body] -- when the body raises, the tables go
    back to what they were on entry and the exception propagates. *)
Definition atomic {A} (body : M A) : M A :=
  fun s =>
    match body s with
    | (Return a, s') => (Return a, s')
    | (Raise e, s') =>
        (Raise e, {| db := db s; writes := writes s'; events := events s' |})
    end.


(** ** ORM operations *)

(** [Model.objects.get(...)]: the single row satisfying the lookup. *)
Definition objects_get {A} (lookup : A -> bool) (rows : list A) : result A :=
  match filter lookup rows with
  | [] => Raise DoesNotExist
  | [r] => Return r
  | _ :: _ :: _ => Raise MultipleObjectsReturned
  end.

Definition lift {A} (r : result A) : M A := fun s => (r, s).

Fixpoint replace_pk {A} (pk : A -> Z) (r : A) (rows : list A) : list A :=
  match rows with
  | [] => []
  | x :: rows' =>
      (if pk x =? pk r then r else x) :: replace_pk pk r rows'
  end.

(** The table after [instance.save()] on an instance that carries a primary
    key: the row with that key is updated, and inserted when there is none. *)
Definition saved {A} (pk : A -> Z) (r : A) (rows : list A) : list A :=
  if existsb (fun x => pk x =? pk r) rows
  then replace_pk pk r rows
  else rows ++ [r].

Definition CustomUser_save (w : World) (u : CustomUser.t) : M unit :=
  execute w (fun d =>
    with_users (saved CustomUser.id (CustomUser.touched (now w) u) (users d)) d).

Definition Token_save (w : World) (k : Token.t) : M unit :=
  execute w (fun d =>
    with_tokens (saved Token.id (Token.touched (now w) k) (tokens d)) d).

Definition OTP_save (w : World) (r : OTP.t) : M unit :=
  execute w (fun d =>
    with_otps (saved OTP.id (OTP.touched (now w) r) (otps d)) d).

(** The lookup [user_id=user] on the token table. *)
Definition belongs_to (user : CustomUser.t) (k : Token.t) : bool :=
  Token.user_id k =? CustomUser.id user.

(** [Token.objects.filter(user_id=user).delete()] *)
Definition Token_delete_for (w : World) (user : CustomUser.t) : M unit :=
  execute w (fun d =>
    with_tokens (filter (fun k => negb (belongs_to user k)) (tokens d)) d).

(** [Token.objects.create(user_id=user, access=access, refresh=refresh)] *)
Definition Token_create (w : World) (user : CustomUser.t)
    (access refresh : string) : M unit :=
  execute w (fun d =>
    {| users := users d;
       tokens := tokens d ++
         [{| Token.id := token_seq d;
             Token.user_id := CustomUser.id user;
             Token.access := access;
             Token.refresh := refresh;
             Token.created_at := now w;
             Token.updated_at := now w |}];
       otps := otps d;
       user_seq := user_seq d;
       token_seq := token_seq d + 1 |}).

(** The lookup [generated_otp=otp]; a null column matches no value. *)
Definition has_generated_otp (otp : Z) (r : OTP.t) : bool :=
  match OTP.generated_otp r with
  | Some g => g =? otp
  | None => false
  end.

(** [OTP.objects.get(generated_otp=otp)] *)
Definition OTP_get_by_generated_otp (otp : Z) : M OTP.t :=
  rows <- query otps ;;
  lift (objects_get (has_generated_otp otp) rows).

(** The lookup [user_id__email=email]: the OTP table joined with the user
    table on the foreign key. *)
Definition has_user_email (us : list CustomUser.t) (email : string)
    (r : OTP.t) : bool :=
  existsb (fun u => (CustomUser.id u =? OTP.user_id r)
                    && String.eqb (CustomUser.email u) email) us.

(** [OTP.objects.get(user_id__email=email)] *)
Definition OTP_get_by_user_email (email : string) : M OTP.t :=
  d <- query (fun d => d) ;;
  lift (objects_get (has_user_email (users d) email) (otps d)).

(** The lookup [refresh=value]; a missing cookie gives [refresh=None], which
    no row satisfies since the column is not nullable. *)
Definition has_refresh (value : option string) (k : Token.t) : bool :=
  match value with
  | Some v => String.eqb (Token.refresh k) v
  | None => false
  end.

(** [Token.objects.get(refresh=value)] *)
Definition Token_get_by_refresh (value : option string) : M Token.t :=
  rows <- query tokens ;;
  lift (objects_get (has_refresh value) rows).

(** [user_otp.user_id]: the related user, fetched through the foreign key. *)
Definition OTP_related_user (r : OTP.t) : M CustomUser.t :=
  rows <- query users ;;
  lift (objects_get (fun u => CustomUser.id u =? OTP.user_id r) rows).

(** *** CustomUserManager *)

Definition kw_str (k : string) (kw : dict) (default : string) : string :=
  match dict_get k kw with Some (VStr s) => s | _ => default end.

Definition kw_opt_str (k : string) (kw : dict) : option string :=
  match dict_get k kw with Some (VStr s) => Some s | _ => None end.

Definition kw_bool (k : string) (kw : dict) (default : bool) : bool :=
  match dict_get k kw with Some (VBool b) => b | _ => default end.

Definition kw_opt_bool (k : string) (kw : dict) (default : option bool)
    : option bool :=
  match dict_get k kw with
  | Some (VBool b) => Some b
  | Some VNone => None
  | _ => default
  end.

Definition kw_opt_int (k : string) (kw : dict) : option Z :=
  match dict_get k kw with Some (VInt z) => Some z | _ => None end.

(** [self.model(email=email, **extra_fields)]: keyword arguments fill their
    columns, every other column takes the default declared in [CustomUser].
    The instance has no primary key until it is saved.  The function follows
    the constructor on keyword arguments that name settable columns with
    values of the column's type ([extra_fields_ok] below); a keyword that
    names no column, which the constructor refuses with [TypeError], a
    primary key given by the caller and values of another type are not
    represented, and properties of arbitrary keyword arguments assume
    [extra_fields_ok]. *)
Definition CustomUser_model (email : string) (extra_fields : dict)
    : CustomUser.t :=
  {| CustomUser.id := 0;
     CustomUser.password := kw_str "password" extra_fields "";
     CustomUser.is_superuser := kw_bool "is_superuser" extra_fields false;
     CustomUser.email := email;
     CustomUser.otp := kw_opt_int "otp" extra_fields;
     CustomUser.first_name := kw_str "first_name" extra_fields "";
     CustomUser.last_name := kw_str "last_name" extra_fields "";
     CustomUser.business_name := kw_opt_str "business_name" extra_fields;
     CustomUser.individual_url := kw_opt_str "individual_url" extra_fields;
     CustomUser.business := kw_opt_bool "business" extra_fields (Some false);
     CustomUser.individual := kw_opt_bool "individual" extra_fields (Some false);
     CustomUser.email_verified := kw_bool "email_verified" extra_fields false;
     CustomUser.accepted_terms := kw_bool "accepted_terms" extra_fields false;
     CustomUser.is_active := kw_bool "is_active" extra_fields true;
     CustomUser.is_staff := kw_bool "is_staff" extra_fields false;
     CustomUser.created_at := 0;
     CustomUser.updated_at := 0 |}.

(** [user.set_password(raw)] *)
Definition set_password (w : World) (raw : string) (u : CustomUser.t)
    : CustomUser.t :=
  CustomUser.with_password (make_password w raw) u.

(** The row an unsaved instance becomes on its first [save()]. *)
Definition CustomUser_inserted (w : World) (pk : Z) (u : CustomUser.t)
    : CustomUser.t :=
  {| CustomUser.id := pk;
     CustomUser.password := CustomUser.password u;
     CustomUser.is_superuser := CustomUser.is_superuser u;
     CustomUser.email := CustomUser.email u;
     CustomUser.otp := CustomUser.otp u;
     CustomUser.first_name := CustomUser.first_name u;
     CustomUser.last_name := CustomUser.last_name u;
     CustomUser.business_name := CustomUser.business_name u;
     CustomUser.individual_url := CustomUser.individual_url u;
     CustomUser.business := CustomUser.business u;
     CustomUser.individual := CustomUser.individual u;
     CustomUser.email_verified := CustomUser.email_verified u;
     CustomUser.accepted_terms := CustomUser.accepted_terms u;
     CustomUser.is_active := CustomUser.is_active u;
     CustomUser.is_staff := CustomUser.is_staff u;
     CustomUser.created_at := now w;
     CustomUser.updated_at := now w |}.

Definition CustomUser_insert (w : World) (u : CustomUser.t) : M CustomUser.t :=
  pk <- query user_seq ;;
  execute w (fun d =>
    {| users := users d ++ [CustomUser_inserted w (user_seq d) u];
       tokens := tokens d;
       otps := otps d;
       user_seq := user_seq d + 1;
       token_seq := token_seq d |}) ;;;
  ret (CustomUser_inserted w pk u).

Definition create_user (w : World) (email password : string)
    (extra_fields : dict) : M CustomUser.t :=
  if String.eqb email ""
  then raise (ValueError "email must be available")
  else
    let email := normalize_email w email in
    let user := CustomUser_model email extra_fields in
    let user := set_password w password user in
    CustomUser_insert w user.

(** ** Requests and responses *)

Module Request.
Record t : Type := {
  data : dict;
  COOKIES : list (string * string);
  (** [request.user]: [None] stands for the anonymous user. *)
  user : option CustomUser.t
}.
End Request.

Record Cookie : Type := {
  key : string;
  cookie_value : string;
  max_age : option Z;
  secure : bool;
  httponly : bool;
  samesite : option string
}.

Module Response.
Record t : Type := {
  data : dict;
  status_code : Z;
  cookies : list Cookie
}.
End Response.

Definition HTTP_200_OK : Z := 200.
Definition HTTP_201_CREATED : Z := 201.
Definition HTTP_400_BAD_REQUEST : Z := 400.
Definition HTTP_404_NOT_FOUND : Z := 404.
Definition HTTP_500_INTERNAL_SERVER_ERROR : Z := 500.

(** [Response(data, status)] *)
Definition Response_ (data : dict) (status : Z) : Response.t :=
  {| Response.data := data; Response.status_code := status;
     Response.cookies := [] |}.

(** [response.set_cookie(key, value, secure=..., samesite=..., max_age=...)];
    [httponly] keeps its default. *)
Definition set_cookie (name value : string) (is_secure : bool)
    (same_site : string) (age : Z) (response : Response.t) : Response.t :=
  {| Response.data := Response.data response;
     Response.status_code := Response.status_code response;
     Response.cookies :=
       filter (fun c => negb (String.eqb (key c) name))
              (Response.cookies response) ++
       [{| key := name; cookie_value := value; max_age := Some age;
           secure := is_secure; httponly := false;
           samesite := Some same_site |}] |}.

Fixpoint cookies_get (k : string) (c : list (string * string))
    : option string :=
  match c with
  | [] => None
  | (k', v) :: c' => if String.eqb k k' then Some v else cookies_get k c'
  end.

(** ** Collaborators inside the repository that are not in the two files *)

(** Modelled from the spec: [notify_user] (notification/notify.py) is missing;
    the spec describes it as a fire-and-forget event sink, so a call records
    one event and touches no table. *)
Definition notify_user (u : option CustomUser.t) (kind message : string)
    : M unit :=
  fun s =>
    (Return tt,
     {| db := db s; writes := writes s;
        events := events s ++
          [{| ev_user := option_map CustomUser.id u;
              ev_kind := kind; ev_message := message |}] |}).

Inductive validation (A : Type) : Type :=
| Valid (validated_data : A)
| Invalid (errors : dict).
Arguments Valid {A} validated_data.
Arguments Invalid {A} errors.

Definition field_str (k : string) (data : dict) : option string :=
  match dict_get k data with
  | Some (VStr s) => if String.eqb s "" then None else Some s
  | _ => None
  end.

Definition field_error (k : string) : dict :=
  [(k, VStr "This field is required.")].

(** Modelled from the spec: [SignInSerializer] (account/serializers.py) is
    missing; sign-in takes an email and a password, both required. *)
Definition SignInSerializer (data : dict) : validation (string * string) :=
  match field_str "email" data, field_str "password" data with
  | Some e, Some p => Valid (e, p)
  | None, _ => Invalid (field_error "email")
  | _, None => Invalid (field_error "password")
  end.

(** Modelled from the spec: [ChangePasswordSerializer] is missing; the flow
    takes the old and the new password, both required. *)
Definition ChangePasswordSerializer (data : dict)
    : validation (string * string) :=
  match field_str "old_password" data, field_str "new_password" data with
  | Some o, Some n => Valid (o, n)
  | None, _ => Invalid (field_error "old_password")
  | _, None => Invalid (field_error "new_password")
  end.

(** Modelled from the spec: [ResendOTPSerializer] is missing; resend takes the
    email of the account. *)
Definition ResendOTPSerializer (data : dict) : validation string :=
  match field_str "email" data with
  | Some e => Valid e
  | None => Invalid (field_error "email")
  end.

(** Modelled from the spec: [OTPSerializer] is missing; validation takes the
    numeric OTP, which the view converts with [int(...)]. *)
Definition OTPSerializer (data : dict) : validation Z :=
  match dict_get "otp" data with
  | Some (VInt z) => Valid z
  | _ => Invalid (field_error "otp")
  end.

Module SignUp.
Record t : Type := {
  email : string;
  password : string;
  first_name : string;
  last_name : string;
  accepted_terms : bool;
  business_name : option string;
  individual_url : option string;
  business : option bool;
  individual : option bool
}.
End SignUp.

Definition opt_field {A} (k : string) (f : A -> value) (o : option A)
    : dict :=
  match o with Some a => [(k, f a)] | None => [] end.

(** The keyword arguments a validated sign-up payload passes on. *)
Definition SignUp_extra_fields (v : SignUp.t) : dict :=
  ([("first_name", VStr (SignUp.first_name v));
    ("last_name", VStr (SignUp.last_name v));
    ("accepted_terms", VBool (SignUp.accepted_terms v))]
   ++ opt_field "business_name" VStr (SignUp.business_name v)
   ++ opt_field "individual_url" VStr (SignUp.individual_url v)
   ++ opt_field "business" VBool (SignUp.business v)
   ++ opt_field "individual" VBool (SignUp.individual v))%list.

(** Modelled from the spec: [SignUpSerializer] is missing.  Its input is
    email, password, profile fields and terms acceptance; the declarative
    rules are "required" (email, password, first and last name, terms flag)
    and uniqueness of the email among the stored users. *)
Definition SignUpSerializer (us : list CustomUser.t) (data : dict)
    : validation SignUp.t :=
  match field_str "email" data, field_str "password" data,
        field_str "first_name" data, field_str "last_name" data,
        dict_get "accepted_terms" data with
  | Some e, Some p, Some f, Some l, Some (VBool a) =>
      if existsb (fun u => String.eqb (CustomUser.email u) e) us
      then Invalid [("email", VStr "user with this email address already exists.")]
      else Valid
             {| SignUp.email := e; SignUp.password := p;
                SignUp.first_name := f; SignUp.last_name := l;
                SignUp.accepted_terms := a;
                SignUp.business_name := kw_opt_str "business_name" data;
                SignUp.individual_url := kw_opt_str "individual_url" data;
                SignUp.business :=
                  match dict_get "business" data with
                  | Some (VBool b) => Some b | _ => None end;
                SignUp.individual :=
                  match dict_get "individual" data with
                  | Some (VBool b) => Some b | _ => None end |}
  | None, _, _, _, _ => Invalid (field_error "email")
  | _, None, _, _, _ => Invalid (field_error "password")
  | _, _, None, _, _ => Invalid (field_error "first_name")
  | _, _, _, None, _ => Invalid (field_error "last_name")
  | _, _, _, _, _ => Invalid (field_error "accepted_terms")
  end.

(** Modelled from the spec: [SignUpSerializer.save()] is missing; on success
    sign-up "creates User with hashed password", that is, through
    [CustomUserManager.create_user]. *)
Definition SignUpSerializer_save (w : World) (v : SignUp.t) : M CustomUser.t :=
  create_user w (SignUp.email v) (SignUp.password v) (SignUp_extra_fields v).

Definition opt_value {A} (f : A -> value) (o : option A) : value :=
  match o with Some a => f a | None => VNone end.

(** Modelled from the spec: [SignUpSerializer.data] is missing; the response
    "returns created fields", the password excepted. *)
Definition SignUpSerializer_data (u : CustomUser.t) : dict :=
  [("email", VStr (CustomUser.email u));
   ("first_name", VStr (CustomUser.first_name u));
   ("last_name", VStr (CustomUser.last_name u));
   ("business_name", opt_value VStr (CustomUser.business_name u));
   ("individual_url", opt_value VStr (CustomUser.individual_url u));
   ("business", opt_value VBool (CustomUser.business u));
   ("individual", opt_value VBool (CustomUser.individual u));
   ("accepted_terms", VBool (CustomUser.accepted_terms u))].

(** The lookup [email=username] on the user table. *)
Definition has_email (username : string) (u : CustomUser.t) : bool :=
  String.eqb (CustomUser.email u) username.

(** [django.contrib.auth.authenticate] with the model backend: the user whose
    [USERNAME_FIELD] (the email) equals [username], provided the password
    checks against the stored hash and the account is active.  The hashes on
    file are taken to be up to date; when one is not, Django re-hashes the
    password after a successful check and saves the user row, a write to
    the user table that is not represented here. *)
Definition authenticate (w : World) (username password : string)
    : M (option CustomUser.t) :=
  rows <- query users ;;
  match objects_get (has_email username) rows with
  | Return user =>
      if check_password w password (CustomUser.password user)
         && CustomUser.is_active user
      then ret (Some user)
      else ret None
  | Raise DoesNotExist => ret None
  | Raise e => raise e
  end.

(** ** account/views.py *)

(** [try: x = m  except Model.DoesNotExist: return handler]  followed by the
    rest of the function body [k]. *)
Definition try_except_DoesNotExist {A B} (m : M A) (handler : M B)
    (k : A -> M B) : M B :=
  fun s =>
    match m s with
    | (Return a, s') => k a s'
    | (Raise DoesNotExist, s') => handler s'
    | (Raise e, s') => (Raise e, s')
    end.

(** [timezone.timedelta(minutes=n)] *)
Definition timedelta_minutes (n : Z) : timedelta := n * 60 * 1000000.

Definition SignUpView_post (w : World) (request : Request.t) : M Response.t :=
  rows <- query users ;;
  match SignUpSerializer rows (Request.data request) with
  | Invalid errors => raise (ValidationError errors)
  | Valid validated_data =>
      user <- SignUpSerializer_save w validated_data ;;
      let context := [] in
      let context := dict_set "status" (VStr "success") context in
      let context :=
        dict_set "message" (VStr "Account created successfully.") context in
      let context := dict_update context (SignUpSerializer_data user) in
      ret (Response_ context HTTP_201_CREATED)
  end.

Definition SignInView_post (w : World) (request : Request.t) : M Response.t :=
  match SignInSerializer (Request.data request) with
  | Invalid errors => raise (ValidationError errors)
  | Valid (email, password) =>
      user <- authenticate w email password ;;
      match user with
      | None =>
          ret (Response_ [("status", VStr "error");
                          ("message", VStr "Invalid account credentials")]
                         400)
      | Some user =>
          let access :=
            get_access_token w [("user_id", CustomUser.id user)] in
          let refresh := get_refresh_token w in
          Token_delete_for w user ;;;
          Token_create w user access refresh ;;;
          let response :=
            Response_ [("status", VStr "success");
                       ("access_token", VStr access)] HTTP_200_OK in
          let response :=
            set_cookie "refresh_token" refresh true "None" 86400 response in
          ret response
      end
  end.

(** The view carries [permission_classes = [IsAuthenticated]], so the body
    runs for an authenticated [request.user] only.  Session bookkeeping
    ([update_session_auth_hash]) is outside the tables and is left out. *)
Definition ChangePasswordView_post (w : World) (request : Request.t)
    : M Response.t :=
  match Request.user request with
  | None => raise NotAuthenticated
  | Some user =>
      let context := [] in
      match ChangePasswordSerializer (Request.data request) with
      | Valid (old_password, new_password) =>
          if check_password w old_password (CustomUser.password user)
          then
            let user := set_password w new_password user in
            CustomUser_save w user ;;;
            let context := dict_set "status" (VStr "success") context in
            let context :=
              dict_set "message" (VStr "Password changed successfully.")
                       context in
            notify_user (Request.user request) "password-success"
                        "Password changed successfully." ;;;
            ret (Response_ context HTTP_200_OK)
          else
            let context := dict_set "status" (VStr "error") context in
            let context :=
              dict_set "message" (VStr "Incorrect old password.") context in
            notify_user (Request.user request) "password-failure"
                        "Incorrect old password." ;;;
            ret (Response_ context HTTP_400_BAD_REQUEST)
      | Invalid errors =>
          let context := dict_set "status" (VStr "error") context in
          let context := dict_update context errors in
          notify_user (Request.user request) "password-failure"
                      "Password failed to change" ;;;
          ret (Response_ context HTTP_400_BAD_REQUEST)
      end
  end.

Definition ResendOTPView_post (w : World) (request : Request.t)
    : M Response.t :=
  let context := [] in
  let otp := generate_otp w in
  match ResendOTPSerializer (Request.data request) with
  | Valid email =>
      try_except_DoesNotExist (OTP_get_by_user_email email)
        (let context := dict_set "status" (VStr "error") context in
         let context :=
           dict_set "message" (VStr "Email not associated to user or otp")
                    context in
         ret (Response_ context HTTP_404_NOT_FOUND))
        (fun user_otp =>
           let user_otp := OTP.with_generated_otp (Some otp) user_otp in
           OTP_save w user_otp ;;;
           let data := [("email", VStr email); ("otp", VInt otp)] in
           let subject := "OTP Resent by Invoice Pulse" in
           let from_email := DEFAULT_FROM_EMAIL w in
           let recipient_list := [email] in
           let email_template :=
             render_to_string w "account/otp.html" data in
           match send_email w subject email_template from_email
                            recipient_list with
           | None =>
               let context := dict_set "status" (VStr "success") context in
               let context :=
                 dict_set "message" (VStr "OTP sent successful") context in
               notify_user (Request.user request) "otp-success"
                           "OTP sent successful" ;;;
               ret (Response_ context HTTP_200_OK)
           | Some e =>
               let context := dict_set "status" (VStr "error") context in
               let context :=
                 dict_set "message" (VStr ("Email sending error: " ++ e))
                          context in
               notify_user (Request.user request) "email-failure"
                           "OTP email failed to send" ;;;
               ret (Response_ context HTTP_500_INTERNAL_SERVER_ERROR)
           end)
  | Invalid errors =>
      let context := dict_set "status" (VStr "error") context in
      let context := dict_update context errors in
      notify_user (Request.user request) "otp-failure" "Failed to send OTP" ;;;
      ret (Response_ context HTTP_400_BAD_REQUEST)
  end.

Definition option_Z_eqb (a b : option Z) : bool :=
  match a, b with
  | Some x, Some y => x =? y
  | None, None => true
  | _, _ => false
  end.

Definition ValidateOTPView_post (w : World) (request : Request.t)
    : M Response.t :=
  let context := [] in
  match OTPSerializer (Request.data request) with
  | Valid otp =>
      try_except_DoesNotExist (OTP_get_by_generated_otp otp)
        (let context := dict_set "status" (VStr "error") context in
         let context := dict_set "message" (VStr "Invalid OTP") context in
         ret (Response_ context HTTP_404_NOT_FOUND))
        (fun user_otp =>
           let otp_time := now w - OTP.updated_at user_otp in
           let exp_time := timedelta_minutes 5 in
           if otp_time >? exp_time
           then
             let context := dict_set "status" (VStr "error") context in
             let context := dict_set "message" (VStr "Expired OTP") context in
             ret (Response_ context HTTP_400_BAD_REQUEST)
           else
             user_otp <-
               (if option_Z_eqb (OTP.generated_otp user_otp) (Some otp)
                then
                  let user_otp := OTP.with_generated_otp None user_otp in
                  OTP_save w user_otp ;;;
                  ret user_otp
                else ret user_otp) ;;
             atomic
               (owner <- OTP_related_user user_otp ;;
                let owner := CustomUser.with_email_verified true owner in
                CustomUser_save w owner) ;;;
             let context := dict_set "status" (VStr "success") context in
             let context :=
               dict_set "message" (VStr "OTP validated successful") context in
             ret (Response_ context HTTP_200_OK))
  | Invalid errors =>
      let context := dict_set "status" (VStr "error") context in
      let context := dict_update context errors in
      ret (Response_ context HTTP_400_BAD_REQUEST)
  end.

Definition RefreshTokenView_get (w : World) (request : Request.t)
    : M Response.t :=
  let refresh_token_cookie :=
    cookies_get "refresh_token" (Request.COOKIES request) in
  try_except_DoesNotExist (Token_get_by_refresh refresh_token_cookie)
    (ret (Response_ [("status", VStr "error");
                     ("message", VStr "Refresh token not found.")] 400))
    (fun active_token =>
       if negb (match refresh_token_cookie with
                | Some c => verify_token w c
                | None => false
                end)
       then
         ret (Response_ [("status", VStr "error");
                         ("message", VStr "Refresh token invalid or expired.")]
                        400)
       else
         let access :=
           get_access_token w [("user_id", Token.id active_token)] in
         let refresh := get_refresh_token w in
         let active_token := Token.with_pair access refresh active_token in
         Token_save w active_token ;;;
         let response :=
           Response_ [("status", VStr "success");
                      ("access_token", VStr access)] HTTP_200_OK in
         let response :=
           set_cookie "refresh_token" refresh true "None" 86400 response in
         ret response).

(** ** A concrete deployment, used to run the views *)

Definition sample_hash (raw : string) : string := "pbkdf2_sha256$" ++ raw.

(** A world whose clock reads [t], whose database rejects the write
    statements selected by [fault], and whose mail transport answers
    [mail]. *)
Definition sample_world (t : datetime) (fault : nat -> bool)
    (mail : option string) : World :=
  {| now := t;
     make_password := sample_hash;
     check_password := fun raw stored => String.eqb (sample_hash raw) stored;
     normalize_email := fun e => e;
     get_access_token := fun claims =>
       match claims with
       | [(_, 1)] => "access.1"
       | [(_, 7)] => "access.7"
       | _ => "access"
       end;
     get_refresh_token := "refresh.new";
     verify_token := fun tok => String.eqb tok "refresh.old";
     generate_otp := 654321;
     send_email := fun _ _ _ _ => mail;
     render_to_string := fun _ _ => "<p>otp</p>";
     DEFAULT_FROM_EMAIL := "noreply@example.com";
     db_fault := fault |}.

Definition no_fault : nat -> bool := fun _ => false.

(** The database rejects the write statement number [n] (counting from 0)
    and accepts the others. *)
Definition fault_at (n : nat) : nat -> bool := fun k => Nat.eqb k n.

Definition ada : CustomUser.t :=
  {| CustomUser.id := 1;
     CustomUser.password := sample_hash "Secret123";
     CustomUser.is_superuser := false;
     CustomUser.email := "ada@example.com";
     CustomUser.otp := None;
     CustomUser.first_name := "Ada";
     CustomUser.last_name := "Byron";
     CustomUser.business_name := None;
     CustomUser.individual_url := None;
     CustomUser.business := Some false;
     CustomUser.individual := Some false;
     CustomUser.email_verified := false;
     CustomUser.accepted_terms := true;
     CustomUser.is_active := true;
     CustomUser.is_staff := false;
     CustomUser.created_at := 1000000;
     CustomUser.updated_at := 1000000 |}.

(** The token row of [ada]; its primary key differs from hers. *)
Definition ada_token : Token.t :=
  {| Token.id := 7; Token.user_id := 1;
     Token.access := "access.old"; Token.refresh := "refresh.old";
     Token.created_at := 2000000; Token.updated_at := 2000000 |}.

Definition ada_otp : OTP.t :=
  {| OTP.id := 3; OTP.user_id := 1; OTP.generated_otp := Some 123456;
     OTP.created_at := 1000000; OTP.updated_at := 600000000 |}.

Definition sample_db : DB :=
  {| users := [ada]; tokens := [ada_token]; otps := [ada_otp];
     user_seq := 2; token_seq := 8 |}.

Definition sample_store : store :=
  {| db := sample_db; writes := 0; events := [] |}.

Definition request_of (data : dict) : Request.t :=
  {| Request.data := data; Request.COOKIES := []; Request.user := None |}.

Definition request_as (u : CustomUser.t) (data : dict) : Request.t :=
  {| Request.data := data; Request.COOKIES := []; Request.user := Some u |}.

Definition request_with_cookies (c : list (string * string)) : Request.t :=
  {| Request.data := []; Request.COOKIES := c; Request.user := None |}.

(** One minute after [ada_otp] was last saved. *)
Definition t_fresh : datetime := 660000000.

(** Five minutes and one second after [ada_otp] was last saved. *)
Definition t_stale : datetime := 901000000.

(** ** Outcomes and states named in the properties *)

Definition response_invalid_otp : Response.t :=
  Response_ [("status", VStr "error"); ("message", VStr "Invalid OTP")] 404.

Definition response_expired_otp : Response.t :=
  Response_ [("status", VStr "error"); ("message", VStr "Expired OTP")] 400.

Definition response_otp_validated : Response.t :=
  Response_ [("status", VStr "success");
             ("message", VStr "OTP validated successful")] 200.

(** The state a successful validation leaves: the OTP slot cleared, then the
    owner marked as verified. *)
Definition validated_db (w : World) (user_otp : OTP.t) (owner : CustomUser.t)
    (d : DB) : DB :=
  with_users
    (saved CustomUser.id
       (CustomUser.touched (now w) (CustomUser.with_email_verified true owner))
       (users d))
    (with_otps
       (saved OTP.id
          (OTP.touched (now w) (OTP.with_generated_otp None user_otp))
          (otps d))
       d).

Definition response_invalid_credentials : Response.t :=
  Response_ [("status", VStr "error");
             ("message", VStr "Invalid account credentials")] 400.

(** The token row a sign-in of [user] creates on the tables [d]. *)
Definition signin_token (w : World) (user : CustomUser.t) (d : DB) : Token.t :=
  {| Token.id := token_seq d;
     Token.user_id := CustomUser.id user;
     Token.access := get_access_token w [("user_id", CustomUser.id user)];
     Token.refresh := get_refresh_token w;
     Token.created_at := now w;
     Token.updated_at := now w |}.

Definition signin_db (w : World) (user : CustomUser.t) (d : DB) : DB :=
  {| users := users d;
     tokens := filter (fun k => negb (belongs_to user k)) (tokens d)
               ++ [signin_token w user d];
     otps := otps d;
     user_seq := user_seq d;
     token_seq := token_seq d + 1 |}.

Definition signin_response (w : World) (user : CustomUser.t) : Response.t :=
  {| Response.data :=
       [("status", VStr "success");
        ("access_token",
         VStr (get_access_token w [("user_id", CustomUser.id user)]))];
     Response.status_code := 200;
     Response.cookies :=
       [{| key := "refresh_token";
           cookie_value := get_refresh_token w;
           max_age := Some 86400;
           secure := true;
           httponly := false;
           samesite := Some "None" |}] |}.

Definition signin_request : Request.t :=
  request_of [("email", VStr "ada@example.com");
              ("password", VStr "Secret123")].

Definition response_incorrect_old_password : Response.t :=
  Response_ [("status", VStr "error");
             ("message", VStr "Incorrect old password.")] 400.

(** The stored password hash of the user with primary key [pk]. *)
Definition stored_password (pk : Z) (d : DB) : option string :=
  option_map CustomUser.password
    (find (fun u => CustomUser.id u =? pk) (users d)).

(** The row sign-up stores for the validated payload [v]. *)
Definition signup_user (w : World) (v : SignUp.t) (d : DB) : CustomUser.t :=
  CustomUser_inserted w (user_seq d)
    (set_password w (SignUp.password v)
       (CustomUser_model (normalize_email w (SignUp.email v))
          (SignUp_extra_fields v))).

Definition signup_response (u : CustomUser.t) : Response.t :=
  Response_
    (dict_update
       [("status", VStr "success");
        ("message", VStr "Account created successfully.")]
       (SignUpSerializer_data u))
    201.

Definition signup_request : Request.t :=
  request_of [("email", VStr "a@b.com"); ("password", VStr "Secret123");
              ("first_name", VStr "A"); ("last_name", VStr "B");
              ("accepted_terms", VBool true)].

Definition signup_payload : SignUp.t :=
  {| SignUp.email := "a@b.com"; SignUp.password := "Secret123";
     SignUp.first_name := "A"; SignUp.last_name := "B";
     SignUp.accepted_terms := true;
     SignUp.business_name := None; SignUp.individual_url := None;
     SignUp.business := None; SignUp.individual := None |}.


(** The message the view hands to the mail transport. *)
Definition resend_dispatch (w : World) (email : string) : option string :=
  send_email w "OTP Resent by Invoice Pulse"
    (render_to_string w "account/otp.html"
       [("email", VStr email); ("otp", VInt (generate_otp w))])
    (DEFAULT_FROM_EMAIL w) [email].

(** The OTP record as the view saves it before the dispatch. *)
Definition resent_otp (w : World) (user_otp : OTP.t) : OTP.t :=
  OTP.touched (now w) (OTP.with_generated_otp (Some (generate_otp w)) user_otp).

(** The response of a refresh on the token row [active_token]. *)
Definition refresh_response (w : World) (active_token : Token.t)
    : Response.t :=
  {| Response.data :=
       [("status", VStr "success");
        ("access_token",
         VStr (get_access_token w [("user_id", Token.id active_token)]))];
     Response.status_code := 200;
     Response.cookies :=
       [{| key := "refresh_token";
           cookie_value := get_refresh_token w;
           max_age := Some 86400;
           secure := true;
           httponly := false;
           samesite := Some "None" |}] |}.

(** The token row as the refresh saves it. *)
Definition refreshed_token (w : World) (active_token : Token.t) : Token.t :=
  Token.touched (now w)
    (Token.with_pair
       (get_access_token w [("user_id", Token.id active_token)])
       (get_refresh_token w) active_token).

(** ** The rest of the manager *)

Definition CustomUser_with_is_superuser (b : bool) (u : CustomUser.t)
    : CustomUser.t :=
  {| CustomUser.id := CustomUser.id u;
     CustomUser.password := CustomUser.password u;
     CustomUser.is_superuser := b;
     CustomUser.email := CustomUser.email u;
     CustomUser.otp := CustomUser.otp u;
     CustomUser.first_name := CustomUser.first_name u;
     CustomUser.last_name := CustomUser.last_name u;
     CustomUser.business_name := CustomUser.business_name u;
     CustomUser.individual_url := CustomUser.individual_url u;
     CustomUser.business := CustomUser.business u;
     CustomUser.individual := CustomUser.individual u;
     CustomUser.email_verified := CustomUser.email_verified u;
     CustomUser.accepted_terms := CustomUser.accepted_terms u;
     CustomUser.is_active := CustomUser.is_active u;
     CustomUser.is_staff := CustomUser.is_staff u;
     CustomUser.created_at := CustomUser.created_at u;
     CustomUser.updated_at := CustomUser.updated_at u |}.

Definition CustomUser_with_is_staff (b : bool) (u : CustomUser.t)
    : CustomUser.t :=
  {| CustomUser.id := CustomUser.id u;
     CustomUser.password := CustomUser.password u;
     CustomUser.is_superuser := CustomUser.is_superuser u;
     CustomUser.email := CustomUser.email u;
     CustomUser.otp := CustomUser.otp u;
     CustomUser.first_name := CustomUser.first_name u;
     CustomUser.last_name := CustomUser.last_name u;
     CustomUser.business_name := CustomUser.business_name u;
     CustomUser.individual_url := CustomUser.individual_url u;
     CustomUser.business := CustomUser.business u;
     CustomUser.individual := CustomUser.individual u;
     CustomUser.email_verified := CustomUser.email_verified u;
     CustomUser.accepted_terms := CustomUser.accepted_terms u;
     CustomUser.is_active := CustomUser.is_active u;
     CustomUser.is_staff := b;
     CustomUser.created_at := CustomUser.created_at u;
     CustomUser.updated_at := CustomUser.updated_at u |}.

(** [CustomUserManager.create_superuser].  The keyword arguments
    [extrafields] are accepted and not passed on to [create_user].  The
    password is taken as given: the default [password=None], which stores an
    unusable password, asks the hasher for a value [World] does not carry. *)
Definition create_superuser (w : World) (email password : string)
    (extrafields : dict) : M CustomUser.t :=
  user <- create_user w email password [] ;;
  let user := CustomUser_with_is_superuser true user in
  let user := CustomUser_with_is_staff true user in
  CustomUser_save w user ;;;
  ret user.

(** ** Further outcomes and sample rows *)

Definition response_refresh_not_found : Response.t :=
  Response_ [("status", VStr "error");
             ("message", VStr "Refresh token not found.")] 400.

Definition response_refresh_invalid : Response.t :=
  Response_ [("status", VStr "error");
             ("message", VStr "Refresh token invalid or expired.")] 400.

Definition response_password_changed : Response.t :=
  Response_ [("status", VStr "success");
             ("message", VStr "Password changed successfully.")] 200.

Definition response_otp_not_associated : Response.t :=
  Response_ [("status", VStr "error");
             ("message", VStr "Email not associated to user or otp")] 404.

Definition response_otp_sent : Response.t :=
  Response_ [("status", VStr "success");
             ("message", VStr "OTP sent successful")] 200.

(** The event [notify_user(u, kind, message)] records. *)
Definition event_for (u : option CustomUser.t) (kind message : string)
    : Event :=
  {| ev_user := option_map CustomUser.id u;
     ev_kind := kind; ev_message := message |}.

(** The user row as a successful password change saves it. *)
Definition repassworded (w : World) (new_password : string)
    (user : CustomUser.t) : CustomUser.t :=
  CustomUser.touched (now w) (set_password w new_password user).

(** The OTP record as a successful validation saves it. *)
Definition cleared_otp (w : World) (user_otp : OTP.t) : OTP.t :=
  OTP.touched (now w) (OTP.with_generated_otp None user_otp).

(** The superuser row [create_superuser] stores on the tables [d]. *)
Definition superuser_row (w : World) (email password : string) (d : DB)
    : CustomUser.t :=
  CustomUser_with_is_staff true
    (CustomUser_with_is_superuser true
       (CustomUser_inserted w (user_seq d)
          (set_password w password
             (CustomUser_model (normalize_email w email) [])))).

Definition bob : CustomUser.t :=
  {| CustomUser.id := 2;
     CustomUser.password := sample_hash "Hunter2";
     CustomUser.is_superuser := false;
     CustomUser.email := "bob@example.com";
     CustomUser.otp := None;
     CustomUser.first_name := "Bob";
     CustomUser.last_name := "Stone";
     CustomUser.business_name := None;
     CustomUser.individual_url := None;
     CustomUser.business := Some false;
     CustomUser.individual := Some false;
     CustomUser.email_verified := false;
     CustomUser.accepted_terms := true;
     CustomUser.is_active := false;
     CustomUser.is_staff := false;
     CustomUser.created_at := 1500000;
     CustomUser.updated_at := 1500000 |}.

Definition bob_token : Token.t :=
  {| Token.id := 9; Token.user_id := 2;
     Token.access := "access.bob"; Token.refresh := "refresh.bob";
     Token.created_at := 2500000; Token.updated_at := 2500000 |}.

(** The OTP record of [bob]; it holds the same value as [ada_otp]. *)
Definition bob_otp : OTP.t :=
  {| OTP.id := 4; OTP.user_id := 2; OTP.generated_otp := Some 123456;
     OTP.created_at := 1500000; OTP.updated_at := 610000000 |}.

(** Two users, each with a token row; only [ada] has an OTP record. *)
Definition pair_db : DB :=
  {| users := [ada; bob]; tokens := [bob_token; ada_token];
     otps := [ada_otp]; user_seq := 3; token_seq := 10 |}.

Definition pair_store : store :=
  {| db := pair_db; writes := 0; events := [] |}.

(** Two users whose OTP records hold the same value. *)
Definition collision_db : DB :=
  {| users := [ada; bob]; tokens := []; otps := [ada_otp; bob_otp];
     user_seq := 3; token_seq := 10 |}.

Definition collision_store : store :=
  {| db := collision_db; writes := 0; events := [] |}.

(** A later world, whose token signer knows the key 10 and which verifies
    the refresh token [sample_world] issues. *)
Definition later_world : World :=
  {| now := t_stale;
     make_password := sample_hash;
     check_password := fun raw stored => String.eqb (sample_hash raw) stored;
     normalize_email := fun e => e;
     get_access_token := fun claims =>
       match claims with
       | [(_, 10)] => "access.10"
       | _ => "access"
       end;
     get_refresh_token := "refresh.newer";
     verify_token := fun tok => String.eqb tok "refresh.new";
     generate_otp := 777777;
     send_email := fun _ _ _ _ => None;
     render_to_string := fun _ _ => "<p>otp</p>";
     DEFAULT_FROM_EMAIL := "noreply@example.com";
     db_fault := no_fault |}.

(** Whether the keyword argument [k=v] names a column of [CustomUser] that a
    caller of [create_user] may set, with a value of the column's type. *)
Definition column_value_ok (kv : string * value) : bool :=
  match kv with
  | (k, VStr _) =>
      existsb (String.eqb k)
        ["first_name"; "last_name"; "business_name"; "individual_url"]
  | (k, VBool _) =>
      existsb (String.eqb k)
        ["business"; "individual"; "email_verified"; "accepted_terms";
         "is_active"; "is_staff"; "is_superuser"]
  | (k, VInt _) => String.eqb k "otp"
  | (k, VNone) =>
      existsb (String.eqb k)
        ["business_name"; "individual_url"; "business"; "individual"; "otp"]
  end.

(** Keyword arguments carry each name once. *)
Fixpoint keys_distinct (d : dict) : bool :=
  match d with
  | [] => true
  | (k, _) :: d' =>
      negb (existsb (fun kv => String.eqb k (fst kv)) d') && keys_distinct d'
  end.

(** The keyword arguments on which [CustomUser_model] follows the model
    constructor. *)
Definition extra_fields_ok (extra_fields : dict) : bool :=
  forallb column_value_ok extra_fields && keys_distinct extra_fields.

(** * Properties *)

(** ** Lookups *)

Lemma filter_none {A} (f : A -> bool) (l : list A) :
  (forall x, In x l -> f x = false) -> filter f l = [].
Proof.
  induction l as [|a l IH]; intros H; simpl; [reflexivity|].
  rewrite (H a (or_introl eq_refl)).
  apply IH. intros x Hx. apply H. right. exact Hx.
Qed.

Lemma objects_get_none {A} (f : A -> bool) (l : list A) :
  (forall x, In x l -> f x = false) -> objects_get f l = Raise DoesNotExist.
Proof.
  intros H. unfold objects_get. rewrite (filter_none f l H). reflexivity.
Qed.

Lemma objects_get_single {A} (f : A -> bool) (l : list A) (r : A) :
  filter f l = [r] -> objects_get f l = Return r.
Proof.
  intros H. unfold objects_get. rewrite H. reflexivity.
Qed.

Lemma objects_get_found {A} (f : A -> bool) (l : list A) (r : A) :
  objects_get f l = Return r -> filter f l = [r].
Proof.
  unfold objects_get.
  destruct (filter f l) as [|x [|y t]]; intros H; inversion H; reflexivity.
Qed.

Lemma filter_single_In {A} (f : A -> bool) (l : list A) (r : A) :
  filter f l = [r] -> In r l /\ f r = true.
Proof.
  intros H. apply filter_In. rewrite H. left. reflexivity.
Qed.

Lemma has_generated_otp_false (otp : Z) (r : OTP.t) :
  OTP.generated_otp r <> Some otp -> has_generated_otp otp r = false.
Proof.
  unfold has_generated_otp. destruct (OTP.generated_otp r) as [g|]; intros H.
  - apply Z.eqb_neq. intros E. apply H. rewrite E. reflexivity.
  - reflexivity.
Qed.

Lemma has_generated_otp_true (otp : Z) (r : OTP.t) :
  has_generated_otp otp r = true -> OTP.generated_otp r = Some otp.
Proof.
  unfold has_generated_otp. destruct (OTP.generated_otp r) as [g|]; intros H.
  - apply Z.eqb_eq in H. rewrite H. reflexivity.
  - discriminate.
Qed.

(** ** Validate OTP *)

(** The view reads nothing of the request but the submitted OTP value. *)
Lemma validate_otp_reads_value_only (w : World) (request request' : Request.t)
    (otp : Z) (s : store) :
  OTPSerializer (Request.data request) = Valid otp ->
  OTPSerializer (Request.data request') = Valid otp ->
  ValidateOTPView_post w request' s = ValidateOTPView_post w request s.
Proof.
  intros H H'. unfold ValidateOTPView_post. rewrite H, H'. reflexivity.
Qed.

(** C8.  A validate-OTP request whose OTP value is held by no OTP record is
    answered 404 with status "error" and message "Invalid OTP", and nothing is
    written.  The lookup is by value over the whole table and is not scoped
    to a user: the view answers "Invalid OTP" only when no record of any
    user holds the value, and two requests that carry the same value get the
    same outcome whoever sends them. *)
Theorem validate_otp_unknown_value (w : World) (request : Request.t)
    (otp : Z) (s : store) :
  OTPSerializer (Request.data request) = Valid otp ->
  ((forall r, In r (otps (db s)) -> OTP.generated_otp r <> Some otp) ->
   ValidateOTPView_post w request s = (Return response_invalid_otp, s))
  /\ (forall s',
        ValidateOTPView_post w request s = (Return response_invalid_otp, s') ->
        forall r, In r (otps (db s)) -> OTP.generated_otp r <> Some otp)
  /\ (forall request',
        OTPSerializer (Request.data request') = Valid otp ->
        ValidateOTPView_post w request' s = ValidateOTPView_post w request s).
Proof.
  intros Hvalid. split; [|split].
  - intros Habsent.
    unfold ValidateOTPView_post. rewrite Hvalid.
    unfold try_except_DoesNotExist, OTP_get_by_generated_otp, bind, query, lift.
    rewrite objects_get_none; [reflexivity|].
    intros r Hr. apply has_generated_otp_false. apply Habsent. exact Hr.
  - intros s' Hrun r Hr Hheld.
    assert (Hsel : In r (filter (has_generated_otp otp) (otps (db s)))).
    { apply filter_In. split; [exact Hr|].
      unfold has_generated_otp. rewrite Hheld. apply Z.eqb_refl. }
    revert Hrun. unfold ValidateOTPView_post. rewrite Hvalid.
    unfold try_except_DoesNotExist, OTP_get_by_generated_otp, bind, query,
      lift, objects_get.
    destruct (filter (has_generated_otp otp) (otps (db s)))
      as [|user_otp [|other rest]]; [destruct Hsel| |discriminate].
    destruct (now w - OTP.updated_at user_otp >? timedelta_minutes 5);
      [discriminate|].
    unfold atomic, OTP_related_user, CustomUser_save, OTP_save, bind, query,
      lift, execute, ret, objects_get.
    destruct (option_Z_eqb (OTP.generated_otp user_otp) (Some otp)); simpl.
    + destruct (db_fault w (writes s)); simpl; [discriminate|].
      destruct (filter _ (users (db s))) as [|owner [|other rest]]; simpl;
        try discriminate.
      destruct (db_fault w (S (writes s))); discriminate.
    + destruct (filter _ (users (db s))) as [|owner [|other rest]]; simpl;
        try discriminate.
      destruct (db_fault w (writes s)); discriminate.
  - intros request' Hvalid'.
    apply (validate_otp_reads_value_only w request request' s Hvalid Hvalid').
Qed.

(** On the two-user tables: [bob], who owns no OTP record, submits a value
    nobody holds and gets 404; the 404 tells that no record holds the value;
    and an anonymous request with the same value gets the same outcome. *)
Lemma validate_otp_unknown_value_witness :
  ((forall r, In r (otps (db pair_store)) ->
      OTP.generated_otp r <> Some 111111) ->
   ValidateOTPView_post (sample_world t_fresh no_fault None)
     (request_as bob [("otp", VInt 111111)]) pair_store
   = (Return response_invalid_otp, pair_store))
  /\ (forall s',
        ValidateOTPView_post (sample_world t_fresh no_fault None)
          (request_as bob [("otp", VInt 111111)]) pair_store
        = (Return response_invalid_otp, s') ->
        forall r, In r (otps (db pair_store)) ->
                  OTP.generated_otp r <> Some 111111)
  /\ (forall request',
        OTPSerializer (Request.data request') = Valid 111111 ->
        ValidateOTPView_post (sample_world t_fresh no_fault None) request'
          pair_store
        = ValidateOTPView_post (sample_world t_fresh no_fault None)
            (request_as bob [("otp", VInt 111111)]) pair_store).
Proof.
  apply (validate_otp_unknown_value (sample_world t_fresh no_fault None)
           (request_as bob [("otp", VInt 111111)]) (otp := 111111)
           pair_store).
  reflexivity.
Defined.

(** The sender plays no part: on the two-user tables [bob] submits the
    value held by the record of [ada], and it is [ada] who gets verified. *)
Example validate_otp_by_another_sender :
  exists s',
    ValidateOTPView_post (sample_world t_fresh no_fault None)
      (request_as bob [("otp", VInt 123456)]) pair_store
    = (Return response_otp_validated, s')
    /\ map CustomUser.email_verified (users (db s')) = [true; false].
Proof.
  eexists. split; [vm_compute; reflexivity|]. reflexivity.
Qed.

(** Within the window, with the owner on file and both writes accepted, the
    validation goes through. *)
Lemma validate_otp_fresh_succeeds (w : World) (request : Request.t) (otp : Z)
    (s : store) (user_otp : OTP.t) (owner : CustomUser.t) :
  OTPSerializer (Request.data request) = Valid otp ->
  filter (has_generated_otp otp) (otps (db s)) = [user_otp] ->
  now w - OTP.updated_at user_otp <= 5 * 60 * 1000000 ->
  filter (fun u => CustomUser.id u =? OTP.user_id user_otp) (users (db s))
    = [owner] ->
  db_fault w (writes s) = false ->
  db_fault w (S (writes s)) = false ->
  ValidateOTPView_post w request s
  = (Return response_otp_validated,
     {| db := validated_db w user_otp owner (db s);
        writes := S (S (writes s));
        events := events s |}).
Proof.
  intros Hvalid Hrow Hage Howner Hw0 Hw1.
  unfold ValidateOTPView_post. rewrite Hvalid.
  unfold try_except_DoesNotExist, OTP_get_by_generated_otp, bind, query, lift.
  rewrite (objects_get_single _ _ Hrow).
  replace (now w - OTP.updated_at user_otp >? timedelta_minutes 5) with false
    by (symmetry; unfold timedelta_minutes; rewrite Z.gtb_ltb; apply Z.ltb_ge; lia).
  destruct (filter_single_In _ _ Hrow) as [_ Hmatch].
  apply has_generated_otp_true in Hmatch.
  unfold option_Z_eqb. rewrite Hmatch, Z.eqb_refl.
  unfold OTP_save, execute, bind. rewrite Hw0.
  unfold atomic, OTP_related_user, CustomUser_save, bind, query, lift, execute.
  simpl. rewrite (objects_get_single _ _ Howner). simpl. rewrite Hw1.
  reflexivity.
Qed.

(** Any 200 answer of the view comes from a single matching record that was
    saved at most five minutes before. *)
Lemma validate_otp_success_is_fresh (w : World) (request : Request.t)
    (s s' : store) (response : Response.t) :
  ValidateOTPView_post w request s = (Return response, s') ->
  Response.status_code response = 200 ->
  exists otp user_otp,
    OTPSerializer (Request.data request) = Valid otp
    /\ filter (has_generated_otp otp) (otps (db s)) = [user_otp]
    /\ now w - OTP.updated_at user_otp <= 5 * 60 * 1000000.
Proof.
  unfold ValidateOTPView_post.
  destruct (OTPSerializer (Request.data request)) as [otp|errors].
  - unfold try_except_DoesNotExist, OTP_get_by_generated_otp, bind, query,
      lift, objects_get.
    destruct (filter (has_generated_otp otp) (otps (db s)))
      as [|user_otp [|other rest]] eqn:Hrows.
    + intros Hrun Hok. inversion Hrun; subst response. discriminate Hok.
    + unfold timedelta_minutes.
      destruct (Z.gtb_spec (now w - OTP.updated_at user_otp)
                  (5 * 60 * 1000000)) as [Hold|Hfresh].
      * intros Hrun Hok. inversion Hrun; subst response. discriminate Hok.
      * intros _ _. exists otp, user_otp.
        split; [reflexivity|]. split; [exact Hrows|exact Hfresh].
    + intros Hrun. discriminate Hrun.
  - intros Hrun Hok. inversion Hrun; subst response. discriminate Hok.
Qed.

(** C4.  When the submitted value is held by the OTP record [user_otp]: if
    more than five minutes have passed since the record was last saved, the
    answer is 400 "Expired OTP" and nothing is written; and whenever the view
    answers 200, at most five minutes have passed. *)
Theorem validate_otp_expiry_window (w : World) (request : Request.t) (otp : Z)
    (s : store) (user_otp : OTP.t) :
  OTPSerializer (Request.data request) = Valid otp ->
  filter (has_generated_otp otp) (otps (db s)) = [user_otp] ->
  (now w - OTP.updated_at user_otp > 5 * 60 * 1000000 ->
   ValidateOTPView_post w request s = (Return response_expired_otp, s))
  /\ (forall response s',
        ValidateOTPView_post w request s = (Return response, s') ->
        Response.status_code response = 200 ->
        now w - OTP.updated_at user_otp <= 5 * 60 * 1000000).
Proof.
  intros Hvalid Hrow.
  unfold ValidateOTPView_post. rewrite Hvalid.
  unfold try_except_DoesNotExist, OTP_get_by_generated_otp, bind, query, lift.
  rewrite (objects_get_single _ _ Hrow).
  unfold timedelta_minutes.
  destruct (Z.gtb_spec (now w - OTP.updated_at user_otp) (5 * 60 * 1000000))
    as [Hold|Hfresh].
  - split.
    + intros _. reflexivity.
    + intros response s' Hrun Hok. inversion Hrun; subst response.
      discriminate Hok.
  - split.
    + intros Hold. lia.
    + intros _ _ _ _. exact Hfresh.
Qed.

Lemma validate_otp_expiry_window_witness :
  ValidateOTPView_post (sample_world t_stale no_fault None)
    (request_of [("otp", VInt 123456)]) sample_store
  = (Return response_expired_otp, sample_store).
Proof.
  refine (proj1 (validate_otp_expiry_window
                   (sample_world t_stale no_fault None)
                   (request_of [("otp", VInt 123456)]) (otp := 123456)
                   sample_store (user_otp := ada_otp) _ _) _).
  - reflexivity.
  - reflexivity.
  - simpl. lia.
Defined.

(** The torn update in general: when the OTP write is accepted and the write
    of the owner is rejected, the request fails with the OTP slot cleared and
    the user table as it was. *)
Lemma validate_otp_torn_update (w : World) (request : Request.t) (otp : Z)
    (s : store) (user_otp : OTP.t) (owner : CustomUser.t) :
  OTPSerializer (Request.data request) = Valid otp ->
  filter (has_generated_otp otp) (otps (db s)) = [user_otp] ->
  now w - OTP.updated_at user_otp <= 5 * 60 * 1000000 ->
  filter (fun u => CustomUser.id u =? OTP.user_id user_otp) (users (db s))
    = [owner] ->
  db_fault w (writes s) = false ->
  db_fault w (S (writes s)) = true ->
  ValidateOTPView_post w request s
  = (Raise DatabaseError,
     {| db := with_otps
                (saved OTP.id
                   (OTP.touched (now w) (OTP.with_generated_otp None user_otp))
                   (otps (db s)))
                (db s);
        writes := S (S (writes s));
        events := events s |}).
Proof.
  intros Hvalid Hrow Hage Howner Hw0 Hw1.
  unfold ValidateOTPView_post. rewrite Hvalid.
  unfold try_except_DoesNotExist, OTP_get_by_generated_otp, bind, query, lift.
  rewrite (objects_get_single _ _ Hrow).
  replace (now w - OTP.updated_at user_otp >? timedelta_minutes 5) with false
    by (symmetry; unfold timedelta_minutes; rewrite Z.gtb_ltb; apply Z.ltb_ge; lia).
  destruct (filter_single_In _ _ Hrow) as [_ Hmatch].
  apply has_generated_otp_true in Hmatch.
  unfold option_Z_eqb. rewrite Hmatch, Z.eqb_refl.
  unfold OTP_save, execute, bind. rewrite Hw0.
  unfold atomic, OTP_related_user, CustomUser_save, bind, query, lift, execute.
  simpl. rewrite (objects_get_single _ _ Howner). simpl. rewrite Hw1.
  reflexivity.
Qed.

(** C1.  The code at a failing input: [ada] submits her pending OTP in time,
    the write that clears the OTP is accepted and the write of the user row
    is rejected.  The request fails, the OTP slot is cleared and stays
    cleared, and [ada] is still unverified: one of the two writes took
    effect without the other. *)
Theorem validate_otp_clears_otp_without_verifying :
  exists s',
    ValidateOTPView_post (sample_world t_fresh (fault_at 1) None)
      (request_of [("otp", VInt 123456)]) sample_store
    = (Raise DatabaseError, s')
    /\ map OTP.generated_otp (otps (db sample_store)) = [Some 123456]
    /\ map OTP.generated_otp (otps (db s')) = [None]
    /\ map CustomUser.email_verified (users (db sample_store)) = [false]
    /\ map CustomUser.email_verified (users (db s')) = [false].
Proof.
  eexists. split; [vm_compute; reflexivity|]. repeat split.
Qed.

(** ** Sign in *)

Lemma authenticate_reads_only (w : World) (username password : string)
    (s : store) :
  snd (authenticate w username password s) = s.
Proof.
  unfold authenticate, bind, query.
  destruct (objects_get (has_email username) (users (db s))) as [u|e].
  - destruct (check_password w password (CustomUser.password u)
              && CustomUser.is_active u); reflexivity.
  - destruct e; reflexivity.
Qed.

Lemma authenticate_no_user (w : World) (username password : string)
    (s : store) :
  (forall u, In u (users (db s)) -> CustomUser.email u <> username) ->
  authenticate w username password s = (Return None, s).
Proof.
  intros H. unfold authenticate, bind, query.
  rewrite objects_get_none; [reflexivity|].
  intros u Hu. unfold has_email. apply String.eqb_neq. apply H. exact Hu.
Qed.

Lemma authenticate_wrong_password (w : World) (username password : string)
    (s : store) (u : CustomUser.t) :
  filter (has_email username) (users (db s)) = [u] ->
  check_password w password (CustomUser.password u) = false ->
  authenticate w username password s = (Return None, s).
Proof.
  intros Hu Hpw. unfold authenticate, bind, query.
  rewrite (objects_get_single _ _ Hu). rewrite Hpw. reflexivity.
Qed.

Lemma signin_run (w : World) (request : Request.t) (s : store)
    (email password : string) (user : CustomUser.t) :
  SignInSerializer (Request.data request) = Valid (email, password) ->
  fst (authenticate w email password s) = Return (Some user) ->
  db_fault w (writes s) = false ->
  db_fault w (S (writes s)) = false ->
  SignInView_post w request s
  = (Return (signin_response w user),
     {| db := signin_db w user (db s);
        writes := S (S (writes s));
        events := events s |}).
Proof.
  intros Hvalid Hauth Hw0 Hw1.
  unfold SignInView_post. rewrite Hvalid. unfold bind at 1.
  rewrite (surjective_pairing (authenticate w email password s)).
  rewrite Hauth, authenticate_reads_only.
  unfold Token_delete_for, Token_create, bind, execute, ret.
  rewrite Hw0. simpl. rewrite Hw1. reflexivity.
Qed.

Lemma filter_negb_none {A} (f : A -> bool) (l : list A) :
  filter f (filter (fun x => negb (f x)) l) = [].
Proof.
  apply filter_none. intros x Hx. apply filter_In in Hx.
  destruct Hx as [_ Hx]. destruct (f x); [discriminate|reflexivity].
Qed.

(** C3.  A sign-in with credentials that authenticate [user], on a database
    that accepts the two writes, completes and leaves exactly one token row
    of [user]: the rows she had are gone, the rows of the other users are
    kept, and the one new row holds the access and refresh values issued by
    this request. *)
Theorem signin_leaves_one_token (w : World) (request : Request.t) (s : store)
    (email password : string) (user : CustomUser.t) :
  SignInSerializer (Request.data request) = Valid (email, password) ->
  fst (authenticate w email password s) = Return (Some user) ->
  db_fault w (writes s) = false ->
  db_fault w (S (writes s)) = false ->
  exists response s',
    SignInView_post w request s = (Return response, s')
    /\ filter (belongs_to user) (tokens (db s'))
       = [signin_token w user (db s)]
    /\ filter (fun k => negb (belongs_to user k)) (tokens (db s'))
       = filter (fun k => negb (belongs_to user k)) (tokens (db s))
    /\ Token.access (signin_token w user (db s))
       = get_access_token w [("user_id", CustomUser.id user)]
    /\ Token.refresh (signin_token w user (db s)) = get_refresh_token w.
Proof.
  intros Hvalid Hauth Hw0 Hw1.
  eexists. eexists. split.
  - apply (signin_run w request s Hvalid Hauth Hw0 Hw1).
  - simpl.
    assert (Hnew : belongs_to user (signin_token w user (db s)) = true)
      by (unfold belongs_to; simpl; apply Z.eqb_refl).
    repeat split.
    + rewrite filter_app, filter_negb_none. simpl. rewrite Hnew. reflexivity.
    + rewrite filter_app. simpl. rewrite Hnew. simpl. rewrite app_nil_r.
      clear. induction (tokens (db s)) as [|k l IH]; simpl; [reflexivity|].
      destruct (negb (belongs_to user k)) eqn:E; simpl.
      * rewrite E, IH. reflexivity.
      * exact IH.
Qed.

Lemma signin_leaves_one_token_witness :
  exists response s',
    SignInView_post (sample_world t_fresh no_fault None) signin_request
      sample_store = (Return response, s')
    /\ filter (belongs_to ada) (tokens (db s'))
       = [signin_token (sample_world t_fresh no_fault None) ada sample_db]
    /\ filter (fun k => negb (belongs_to ada k)) (tokens (db s')) = []
    /\ Token.access
         (signin_token (sample_world t_fresh no_fault None) ada sample_db)
       = "access.1"
    /\ Token.refresh
         (signin_token (sample_world t_fresh no_fault None) ada sample_db)
       = "refresh.new".
Proof.
  apply (signin_leaves_one_token (sample_world t_fresh no_fault None)
           signin_request sample_store
           (email := "ada@example.com") (password := "Secret123")
           (user := ada));
    reflexivity.
Defined.

(** C5.  A sign-in with a well-formed payload whose email belongs to no user,
    or whose password does not check against the stored hash of the user
    with that email, is answered 400 with the generic message, and the whole
    store, the token table included, is left as it was. *)
Theorem signin_rejects_bad_credentials (w : World) (request : Request.t)
    (s : store) (email password : string) :
  SignInSerializer (Request.data request) = Valid (email, password) ->
  (forall u, In u (users (db s)) -> CustomUser.email u <> email)
  \/ (exists u,
        filter (has_email email) (users (db s)) = [u]
        /\ check_password w password (CustomUser.password u) = false) ->
  SignInView_post w request s = (Return response_invalid_credentials, s)
  /\ tokens (db (snd (SignInView_post w request s))) = tokens (db s).
Proof.
  intros Hvalid Hbad.
  assert (Hauth : authenticate w email password s = (Return None, s)).
  { destruct Hbad as [Hnone|[u [Hu Hpw]]].
    - apply authenticate_no_user. exact Hnone.
    - apply (authenticate_wrong_password w email password s Hu Hpw). }
  assert (Hrun :
    SignInView_post w request s = (Return response_invalid_credentials, s)).
  { unfold SignInView_post. rewrite Hvalid. unfold bind. rewrite Hauth.
    reflexivity. }
  split; [exact Hrun|]. rewrite Hrun. reflexivity.
Qed.

Lemma signin_rejects_bad_credentials_witness :
  SignInView_post (sample_world t_fresh no_fault None)
    (request_of [("email", VStr "ada@example.com");
                 ("password", VStr "secret123")]) sample_store
  = (Return response_invalid_credentials, sample_store).
Proof.
  refine (proj1 (signin_rejects_bad_credentials
                   (sample_world t_fresh no_fault None)
                   (request_of [("email", VStr "ada@example.com");
                                ("password", VStr "secret123")])
                   sample_store
                   (email := "ada@example.com") (password := "secret123")
                   _ _)).
  - reflexivity.
  - right. exists ada. split; reflexivity.
Defined.

(** C6.  A successful sign-in answers 200 with a body that carries the
    access token, and sets exactly one cookie: [refresh_token], holding the
    refresh token, Secure, SameSite=None, Max-Age 86400. *)
Theorem signin_success_response (w : World) (request : Request.t) (s : store)
    (email password : string) (user : CustomUser.t) :
  SignInSerializer (Request.data request) = Valid (email, password) ->
  fst (authenticate w email password s) = Return (Some user) ->
  db_fault w (writes s) = false ->
  db_fault w (S (writes s)) = false ->
  exists response,
    fst (SignInView_post w request s) = Return response
    /\ Response.status_code response = 200
    /\ dict_get "access_token" (Response.data response)
       = Some (VStr (get_access_token w [("user_id", CustomUser.id user)]))
    /\ Response.cookies response
       = [{| key := "refresh_token";
             cookie_value := get_refresh_token w;
             max_age := Some 86400;
             secure := true;
             httponly := false;
             samesite := Some "None" |}].
Proof.
  intros Hvalid Hauth Hw0 Hw1.
  exists (signin_response w user).
  rewrite (signin_run w request s Hvalid Hauth Hw0 Hw1).
  repeat split.
Qed.

Lemma signin_success_response_witness :
  exists response,
    fst (SignInView_post (sample_world t_fresh no_fault None) signin_request
           sample_store) = Return response
    /\ Response.status_code response = 200
    /\ dict_get "access_token" (Response.data response)
       = Some (VStr "access.1")
    /\ Response.cookies response
       = [{| key := "refresh_token";
             cookie_value := "refresh.new";
             max_age := Some 86400;
             secure := true;
             httponly := false;
             samesite := Some "None" |}].
Proof.
  apply (signin_success_response (sample_world t_fresh no_fault None)
           signin_request sample_store
           (email := "ada@example.com") (password := "Secret123")
           (user := ada));
    reflexivity.
Defined.

(** ** Change password *)

(** C7.  A change-password request of an authenticated user whose old
    password does not check against the stored hash is answered 400, and the
    tables are left as they were; in particular the stored hash of the user
    is unchanged.  The only effect is the notification event. *)
Theorem change_password_wrong_old (w : World) (request : Request.t)
    (s : store) (user : CustomUser.t) (old_password new_password : string) :
  Request.user request = Some user ->
  ChangePasswordSerializer (Request.data request)
    = Valid (old_password, new_password) ->
  check_password w old_password (CustomUser.password user) = false ->
  exists s',
    ChangePasswordView_post w request s
      = (Return response_incorrect_old_password, s')
    /\ Response.status_code response_incorrect_old_password = 400
    /\ db s' = db s
    /\ stored_password (CustomUser.id user) (db s')
       = stored_password (CustomUser.id user) (db s).
Proof.
  intros Huser Hvalid Hpw.
  unfold ChangePasswordView_post. rewrite Huser, Hvalid, Hpw.
  eexists. split; [reflexivity|]. simpl. repeat split.
Qed.

Lemma change_password_wrong_old_witness :
  exists s',
    ChangePasswordView_post (sample_world t_fresh no_fault None)
      (request_as ada [("old_password", VStr "guess");
                       ("new_password", VStr "Changed456")])
      sample_store
      = (Return response_incorrect_old_password, s')
    /\ Response.status_code response_incorrect_old_password = 400
    /\ db s' = sample_db
    /\ stored_password 1 (db s') = Some (sample_hash "Secret123").
Proof.
  apply (change_password_wrong_old (sample_world t_fresh no_fault None)
           (request_as ada [("old_password", VStr "guess");
                            ("new_password", VStr "Changed456")])
           sample_store (user := ada)
           (old_password := "guess") (new_password := "Changed456"));
    reflexivity.
Defined.

(** ** Sign up *)

Lemma SignUpSerializer_email_nonempty (us : list CustomUser.t) (data : dict)
    (v : SignUp.t) :
  SignUpSerializer us data = Valid v -> String.eqb (SignUp.email v) "" = false.
Proof.
  unfold SignUpSerializer, field_str.
  destruct (dict_get "email" data) as [[e| | |]|]; try discriminate.
  - destruct (String.eqb e "") eqn:Ee.
    + discriminate.
    + destruct (match dict_get "password" data with
                | Some (VStr s) => if String.eqb s "" then None else Some s
                | _ => None end); [|discriminate].
      destruct (match dict_get "first_name" data with
                | Some (VStr s) => if String.eqb s "" then None else Some s
                | _ => None end); [|discriminate].
      destruct (match dict_get "last_name" data with
                | Some (VStr s) => if String.eqb s "" then None else Some s
                | _ => None end); [|discriminate].
      destruct (dict_get "accepted_terms" data) as [[| |b|]|];
        try discriminate.
      destruct (existsb _ us); [discriminate|].
      intros H. inversion H. simpl. exact Ee.
Qed.

Lemma dict_get_opt_field_other {A} (k k' : string) (f : A -> value)
    (o : option A) (rest : dict) :
  String.eqb k k' = false ->
  dict_get k (opt_field k' f o ++ rest)%list = dict_get k rest.
Proof.
  intros H. destruct o; simpl; [rewrite H|]; reflexivity.
Qed.

(** The keyword arguments of a sign-up name neither the verification flag
    nor the password column. *)
Lemma SignUp_extra_fields_plain (v : SignUp.t) :
  dict_get "email_verified" (SignUp_extra_fields v) = None
  /\ dict_get "password" (SignUp_extra_fields v) = None.
Proof.
  unfold SignUp_extra_fields. simpl.
  rewrite !dict_get_opt_field_other by reflexivity.
  destruct (SignUp.individual v); split; reflexivity.
Qed.

(** C9.  A valid sign-up payload, on a database that accepts the insert,
    creates one user with [email_verified = False] whose stored password is
    the hasher's output for the submitted password, and is answered 201 with
    the created fields.  The stored value differs from the plaintext as soon
    as the hasher does not return its input unchanged. *)
Theorem signup_creates_unverified_hashed_user (w : World)
    (request : Request.t) (s : store) (v : SignUp.t) :
  SignUpSerializer (users (db s)) (Request.data request) = Valid v ->
  db_fault w (writes s) = false ->
  make_password w (SignUp.password v) <> SignUp.password v ->
  exists s',
    SignUpView_post w request s
      = (Return (signup_response (signup_user w v (db s))), s')
    /\ Response.status_code (signup_response (signup_user w v (db s))) = 201
    /\ dict_get "email"
         (Response.data (signup_response (signup_user w v (db s))))
       = Some (VStr (normalize_email w (SignUp.email v)))
    /\ dict_get "first_name"
         (Response.data (signup_response (signup_user w v (db s))))
       = Some (VStr (SignUp.first_name v))
    /\ dict_get "last_name"
         (Response.data (signup_response (signup_user w v (db s))))
       = Some (VStr (SignUp.last_name v))
    /\ users (db s') = (users (db s) ++ [signup_user w v (db s)])%list
    /\ CustomUser.email_verified (signup_user w v (db s)) = false
    /\ CustomUser.password (signup_user w v (db s))
       = make_password w (SignUp.password v)
    /\ CustomUser.password (signup_user w v (db s)) <> SignUp.password v.
Proof.
  intros Hvalid Hw Hhash.
  unfold SignUpView_post, bind at 1. unfold query at 1. rewrite Hvalid.
  unfold SignUpSerializer_save, create_user.
  rewrite (SignUpSerializer_email_nonempty _ _ Hvalid).
  unfold CustomUser_insert, bind, query, execute, ret. rewrite Hw. simpl.
  eexists. split; [reflexivity|]. simpl.
  destruct (SignUp_extra_fields_plain v) as [Hverified _].
  repeat split.
  - unfold kw_bool. rewrite Hverified. reflexivity.
  - exact Hhash.
Qed.

Lemma signup_creates_unverified_hashed_user_witness :
  exists s',
    SignUpView_post (sample_world t_fresh no_fault None) signup_request
      sample_store
      = (Return
           (signup_response
              (signup_user (sample_world t_fresh no_fault None)
                 signup_payload sample_db)), s')
    /\ Response.status_code
         (signup_response
            (signup_user (sample_world t_fresh no_fault None)
               signup_payload sample_db)) = 201
    /\ dict_get "email"
         (Response.data
            (signup_response
               (signup_user (sample_world t_fresh no_fault None)
                  signup_payload sample_db))) = Some (VStr "a@b.com")
    /\ dict_get "first_name"
         (Response.data
            (signup_response
               (signup_user (sample_world t_fresh no_fault None)
                  signup_payload sample_db))) = Some (VStr "A")
    /\ dict_get "last_name"
         (Response.data
            (signup_response
               (signup_user (sample_world t_fresh no_fault None)
                  signup_payload sample_db))) = Some (VStr "B")
    /\ users (db s')
       = [ada; signup_user (sample_world t_fresh no_fault None)
                 signup_payload sample_db]
    /\ CustomUser.email_verified
         (signup_user (sample_world t_fresh no_fault None)
            signup_payload sample_db) = false
    /\ CustomUser.password
         (signup_user (sample_world t_fresh no_fault None)
            signup_payload sample_db) = "pbkdf2_sha256$Secret123"
    /\ CustomUser.password
         (signup_user (sample_world t_fresh no_fault None)
            signup_payload sample_db) <> "Secret123".
Proof.
  apply (signup_creates_unverified_hashed_user
           (sample_world t_fresh no_fault None) signup_request sample_store
           (v := signup_payload)).
  - reflexivity.
  - reflexivity.
  - simpl. discriminate.
Defined.

(** ** Resend OTP *)

Lemma replace_pk_In {A} (pk : A -> Z) (r x : A) (rows : list A) :
  In x (replace_pk pk r rows) -> pk x = pk r -> x = r.
Proof.
  induction rows as [|y rows IH]; simpl; [intros []|].
  intros [Hx|Hx] Hpk.
  - destruct (pk y =? pk r) eqn:E; [symmetry; exact Hx|].
    apply Z.eqb_neq in E. subst y. contradiction.
  - apply IH; assumption.
Qed.

Lemma replace_pk_has {A} (pk : A -> Z) (r x : A) (rows : list A) :
  In x rows -> pk x = pk r -> In r (replace_pk pk r rows).
Proof.
  induction rows as [|y rows IH]; simpl; [intros []|].
  intros [Hx|Hx] Hpk.
  - subst y. rewrite Hpk, Z.eqb_refl. left. reflexivity.
  - right. apply IH; assumption.
Qed.

Lemma saved_present {A} (pk : A -> Z) (r x : A) (rows : list A) :
  In x rows -> pk x = pk r -> saved pk r rows = replace_pk pk r rows.
Proof.
  intros Hx Hpk. unfold saved.
  replace (existsb (fun y => pk y =? pk r) rows) with true; [reflexivity|].
  symmetry. apply existsb_exists. exists x. split; [exact Hx|].
  apply Z.eqb_eq. exact Hpk.
Qed.



(** ** Refresh token *)

(** Under a signer that tells claims apart, a token row whose primary key
    is not the id of its owner is refreshed with an access token other than
    the owner's. *)
Lemma refresh_access_not_the_owners (w : World) (active_token : Token.t) :
  (forall c c', get_access_token w c = get_access_token w c' -> c = c') ->
  Token.id active_token <> Token.user_id active_token ->
  get_access_token w [("user_id", Token.id active_token)]
  <> get_access_token w [("user_id", Token.user_id active_token)].
Proof.
  intros Hinj Hne Heq. apply Hinj in Heq. inversion Heq. contradiction.
Qed.

(** C2.  A refresh request whose cookie selects the token row
    [active_token] and verifies is answered with an access token minted from
    the claims [user_id = active_token.id], the primary key of the token row
    itself; the id of the owning user, [active_token.user_id], is not what
    the token signer receives.  The same access token is stored in the
    row. *)
Theorem refresh_mints_from_token_row_id (w : World) (request : Request.t)
    (s : store) (cookie : string) (active_token : Token.t) :
  cookies_get "refresh_token" (Request.COOKIES request) = Some cookie ->
  filter (has_refresh (Some cookie)) (tokens (db s)) = [active_token] ->
  verify_token w cookie = true ->
  db_fault w (writes s) = false ->
  exists s',
    RefreshTokenView_get w request s
      = (Return (refresh_response w active_token), s')
    /\ dict_get "access_token" (Response.data (refresh_response w active_token))
       = Some (VStr (get_access_token w
                       [("user_id", Token.id active_token)]))
    /\ tokens (db s')
       = saved Token.id (refreshed_token w active_token) (tokens (db s))
    /\ Token.access (refreshed_token w active_token)
       = get_access_token w [("user_id", Token.id active_token)].
Proof.
  intros Hcookie Hrow Hverify Hw.
  unfold RefreshTokenView_get. rewrite Hcookie.
  unfold try_except_DoesNotExist, Token_get_by_refresh, bind, query, lift.
  rewrite (objects_get_single _ _ Hrow). rewrite Hverify. simpl.
  unfold Token_save, execute. rewrite Hw. unfold ret.
  eexists. split; [reflexivity|]. simpl. repeat split.
Qed.

(** On the sample tables the token row has primary key 7 and belongs to
    user 1: the refreshed access token is the one for 7. *)
Lemma refresh_mints_from_token_row_id_witness :
  exists s',
    RefreshTokenView_get (sample_world t_fresh no_fault None)
      (request_with_cookies [("refresh_token", "refresh.old")]) sample_store
      = (Return (refresh_response (sample_world t_fresh no_fault None)
                   ada_token), s')
    /\ dict_get "access_token"
         (Response.data
            (refresh_response (sample_world t_fresh no_fault None) ada_token))
       = Some (VStr "access.7")
    /\ tokens (db s')
       = [refreshed_token (sample_world t_fresh no_fault None) ada_token]
    /\ Token.access
         (refreshed_token (sample_world t_fresh no_fault None) ada_token)
       = "access.7".
Proof.
  apply (refresh_mints_from_token_row_id
           (sample_world t_fresh no_fault None)
           (request_with_cookies [("refresh_token", "refresh.old")])
           sample_store (cookie := "refresh.old")
           (active_token := ada_token));
    reflexivity.
Defined.

(** * Further properties of the code *)

(** ** Saving rows *)

Lemma replace_pk_length {A} (pk : A -> Z) (r : A) (rows : list A) :
  List.length (replace_pk pk r rows) = List.length rows.
Proof.
  induction rows as [|x rows IH]; simpl; [reflexivity|].
  rewrite IH. reflexivity.
Qed.

Lemma replace_pk_fresh {A} (pk : A -> Z) (r : A) (rows : list A) :
  (forall x, In x rows -> pk x <> pk r) -> replace_pk pk r rows = rows.
Proof.
  induction rows as [|x rows IH]; intros H; simpl; [reflexivity|].
  replace (pk x =? pk r) with false
    by (symmetry; apply Z.eqb_neq, H; left; reflexivity).
  rewrite IH; [reflexivity|].
  intros y Hy. apply H. right. exact Hy.
Qed.

Lemma replace_pk_In_inv {A} (pk : A -> Z) (r x : A) (rows : list A) :
  In x (replace_pk pk r rows) -> x = r \/ (In x rows /\ pk x <> pk r).
Proof.
  induction rows as [|y rows IH]; simpl; [intros []|].
  intros [Hx|Hx].
  - destruct (pk y =? pk r) eqn:E.
    + left. symmetry. exact Hx.
    + right. subst y. split; [left; reflexivity|].
      apply Z.eqb_neq. exact E.
  - destruct (IH Hx) as [Hr|[Hin Hpk]].
    + left. exact Hr.
    + right. split; [right; exact Hin|exact Hpk].
Qed.

(** Once the only row a lookup selects is overwritten by a row the lookup
    does not select, the lookup selects nothing. *)
Lemma filter_replace_pk_none {A} (f : A -> bool) (pk : A -> Z) (r r' : A)
    (rows : list A) :
  filter f rows = [r] -> pk r' = pk r -> f r' = false ->
  filter f (replace_pk pk r' rows) = [].
Proof.
  intros Hrow Hpk Hr'. apply filter_none. intros x Hx.
  destruct (replace_pk_In_inv pk r' x rows Hx) as [Heq|[Hin Hne]].
  - subst x. exact Hr'.
  - destruct (f x) eqn:Hfx; [|reflexivity].
    assert (Hsel : In x (filter f rows)) by (apply filter_In; split; assumption).
    rewrite Hrow in Hsel. destruct Hsel as [Hsel|[]]. subst x.
    exfalso. apply Hne. symmetry. exact Hpk.
Qed.

(** With unique primary keys, overwriting the row [r] by a row the lookup
    selects, when no row with another key is selected, leaves exactly the
    new row selected. *)
Lemma filter_replace_pk_single {A} (f : A -> bool) (pk : A -> Z) (r r' : A)
    (rows : list A) :
  NoDup (map pk rows) -> In r rows -> pk r' = pk r -> f r' = true ->
  (forall x, In x rows -> pk x <> pk r -> f x = false) ->
  filter f (replace_pk pk r' rows) = [r'].
Proof.
  induction rows as [|a rows IH]; intros Hnd Hin Hpk Hr' Hothers;
    [destruct Hin|].
  simpl in Hnd. inversion Hnd as [|? ? Hnotin Hnd']; subst.
  simpl. destruct (pk a =? pk r') eqn:E.
  - apply Z.eqb_eq in E. rewrite Hr'. f_equal.
    assert (Hfresh : forall x, In x rows -> pk x <> pk r').
    { intros x Hx Heq. apply Hnotin. rewrite E, <- Heq.
      apply in_map. exact Hx. }
    rewrite (replace_pk_fresh pk r' rows Hfresh).
    apply filter_none. intros x Hx. apply Hothers; [right; exact Hx|].
    rewrite <- Hpk. apply Hfresh. exact Hx.
  - apply Z.eqb_neq in E.
    rewrite (Hothers a (or_introl eq_refl)) by (rewrite <- Hpk; exact E).
    apply IH; try assumption.
    + destruct Hin as [Ha|Hin]; [|exact Hin].
      subst a. exfalso. apply E. symmetry. exact Hpk.
    + intros x Hx. apply Hothers. right. exact Hx.
Qed.

Lemma saved_length {A} (pk : A -> Z) (r x : A) (rows : list A) :
  In x rows -> pk x = pk r ->
  List.length (saved pk r rows) = List.length rows.
Proof.
  intros Hx Hpk. rewrite (saved_present pk r x rows Hx Hpk).
  apply replace_pk_length.
Qed.

(** ** CustomUserManager *)

Lemma create_user_run (w : World) (email password : string)
    (extra_fields : dict) (s : store) :
  email <> "" ->
  db_fault w (writes s) = false ->
  create_user w email password extra_fields s
  = (Return
       (CustomUser_inserted w (user_seq (db s))
          (set_password w password
             (CustomUser_model (normalize_email w email) extra_fields))),
     {| db :=
          {| users := users (db s) ++
               [CustomUser_inserted w (user_seq (db s))
                  (set_password w password
                     (CustomUser_model (normalize_email w email)
                        extra_fields))];
             tokens := tokens (db s);
             otps := otps (db s);
             user_seq := user_seq (db s) + 1;
             token_seq := token_seq (db s) |};
        writes := S (writes s);
        events := events s |}).
Proof.
  intros Hemail Hw. unfold create_user.
  replace (String.eqb email "") with false
    by (symmetry; apply String.eqb_neq; exact Hemail).
  unfold CustomUser_insert, bind, query, execute, ret. rewrite Hw.
  reflexivity.
Qed.

(** X1.  Both manager methods refuse an empty email with
    [ValueError('email must be available')] before any statement reaches the
    database: the store, write counter included, is as it was. *)
Theorem manager_rejects_empty_email (w : World) (password : string)
    (extra_fields : dict) (s : store) :
  create_user w "" password extra_fields s
  = (Raise (ValueError "email must be available"), s)
  /\ create_superuser w "" password extra_fields s
     = (Raise (ValueError "email must be available"), s).
Proof.
  split; reflexivity.
Qed.

(** X2.  [create_user] with a non-empty email and keyword arguments that
    name settable columns with values of their type, on a database that
    accepts the insert, appends exactly one row and returns it: the row
    takes the next primary key, holds the normalized email and the hasher's
    output for the password, and the token and OTP tables are untouched.
    Flags the keyword arguments do not name take the model defaults:
    unverified, active, not staff. *)
Theorem create_user_inserts_one_row (w : World) (email password : string)
    (extra_fields : dict) (s : store) :
  email <> "" ->
  extra_fields_ok extra_fields = true ->
  db_fault w (writes s) = false ->
  exists u s',
    create_user w email password extra_fields s = (Return u, s')
    /\ users (db s') = (users (db s) ++ [u])%list
    /\ CustomUser.id u = user_seq (db s)
    /\ user_seq (db s') = user_seq (db s) + 1
    /\ CustomUser.email u = normalize_email w email
    /\ CustomUser.password u = make_password w password
    /\ tokens (db s') = tokens (db s)
    /\ otps (db s') = otps (db s)
    /\ (dict_get "email_verified" extra_fields = None ->
        CustomUser.email_verified u = false)
    /\ (dict_get "is_active" extra_fields = None ->
        CustomUser.is_active u = true)
    /\ (dict_get "is_staff" extra_fields = None ->
        CustomUser.is_staff u = false).
Proof.
  intros Hemail _ Hw.
  eexists. eexists. split.
  - apply (create_user_run w password extra_fields s Hemail Hw).
  - simpl. unfold kw_bool.
    repeat split; intros H; rewrite H; reflexivity.
Qed.

Lemma create_user_inserts_one_row_witness :
  exists u s',
    create_user (sample_world t_fresh no_fault None) "eve@example.com"
      "Pa55word" [("first_name", VStr "Eve")] sample_store = (Return u, s')
    /\ users (db s') = [ada; u]
    /\ CustomUser.id u = 2
    /\ user_seq (db s') = 3
    /\ CustomUser.email u = "eve@example.com"
    /\ CustomUser.password u = "pbkdf2_sha256$Pa55word"
    /\ tokens (db s') = [ada_token]
    /\ otps (db s') = [ada_otp]
    /\ (dict_get "email_verified" [("first_name", VStr "Eve")] = None ->
        CustomUser.email_verified u = false)
    /\ (dict_get "is_active" [("first_name", VStr "Eve")] = None ->
        CustomUser.is_active u = true)
    /\ (dict_get "is_staff" [("first_name", VStr "Eve")] = None ->
        CustomUser.is_staff u = false).
Proof.
  apply (create_user_inserts_one_row (sample_world t_fresh no_fault None)
           (email := "eve@example.com") "Pa55word"
           [("first_name", VStr "Eve")] sample_store).
  - discriminate.
  - reflexivity.
  - reflexivity.
Defined.

(** X3.  When the database rejects the insert, [create_user] raises and no
    table has changed. *)
Theorem create_user_rejected_insert (w : World) (email password : string)
    (extra_fields : dict) (s : store) :
  email <> "" ->
  db_fault w (writes s) = true ->
  exists s',
    create_user w email password extra_fields s = (Raise DatabaseError, s')
    /\ db s' = db s.
Proof.
  intros Hemail Hw. unfold create_user.
  replace (String.eqb email "") with false
    by (symmetry; apply String.eqb_neq; exact Hemail).
  unfold CustomUser_insert, bind, query, execute. rewrite Hw.
  eexists. split; reflexivity.
Qed.

Lemma create_user_rejected_insert_witness :
  exists s',
    create_user (sample_world t_fresh (fault_at 0) None) "eve@example.com"
      "Pa55word" [] sample_store = (Raise DatabaseError, s')
    /\ db s' = sample_db.
Proof.
  apply (create_user_rejected_insert (sample_world t_fresh (fault_at 0) None)
           (email := "eve@example.com") "Pa55word" [] sample_store).
  - discriminate.
  - reflexivity.
Defined.

Lemma replace_pk_app {A} (pk : A -> Z) (r : A) (l1 l2 : list A) :
  replace_pk pk r (l1 ++ l2) = (replace_pk pk r l1 ++ replace_pk pk r l2)%list.
Proof.
  induction l1 as [|x l1 IH]; simpl; [reflexivity|].
  rewrite IH. reflexivity.
Qed.

(** Saving a changed copy of the row that was just appended under a fresh
    key overwrites that row and no other. *)
Lemma saved_last {A} (pk : A -> Z) (r r' : A) (rows : list A) :
  (forall x, In x rows -> pk x <> pk r) -> pk r' = pk r ->
  saved pk r' (rows ++ [r]) = (rows ++ [r'])%list.
Proof.
  intros Hfresh Hpk. unfold saved.
  replace (existsb (fun x => pk x =? pk r') (rows ++ [r])) with true.
  - rewrite replace_pk_app, replace_pk_fresh.
    + simpl. rewrite Hpk, Z.eqb_refl. reflexivity.
    + intros x Hx. rewrite Hpk. apply Hfresh. exact Hx.
  - symmetry. apply existsb_exists. exists r. split.
    + apply in_or_app. right. left. reflexivity.
    + apply Z.eqb_eq. symmetry. exact Hpk.
Qed.

(** X4.  [create_superuser] with a non-empty email, on a database that
    accepts its two writes and whose key sequence is ahead of the stored
    keys, stores one new row and returns it.  The row is a staff superuser
    with the hashed password; the keyword arguments are dropped, so the
    name fields are empty and the terms and verification flags are off
    whatever [extrafields] says. *)
Theorem create_superuser_stores_staff_superuser (w : World)
    (email password : string) (extrafields : dict) (s : store) :
  email <> "" ->
  db_fault w (writes s) = false ->
  db_fault w (S (writes s)) = false ->
  (forall x, In x (users (db s)) -> CustomUser.id x <> user_seq (db s)) ->
  exists s',
    create_superuser w email password extrafields s
      = (Return (superuser_row w email password (db s)), s')
    /\ users (db s')
       = (users (db s) ++ [superuser_row w email password (db s)])%list
    /\ CustomUser.is_superuser (superuser_row w email password (db s)) = true
    /\ CustomUser.is_staff (superuser_row w email password (db s)) = true
    /\ CustomUser.password (superuser_row w email password (db s))
       = make_password w password
    /\ CustomUser.first_name (superuser_row w email password (db s)) = ""
    /\ CustomUser.last_name (superuser_row w email password (db s)) = ""
    /\ CustomUser.accepted_terms (superuser_row w email password (db s))
       = false
    /\ CustomUser.email_verified (superuser_row w email password (db s))
       = false.
Proof.
  intros Hemail Hw0 Hw1 Hfresh.
  unfold create_superuser, bind.
  rewrite (create_user_run w password [] s Hemail Hw0).
  unfold CustomUser_save, execute. simpl. rewrite Hw1. unfold ret.
  eexists. split; [reflexivity|]. simpl.
  split; [|repeat split].
  apply (saved_last CustomUser.id); [exact Hfresh|reflexivity].
Qed.

Lemma create_superuser_stores_staff_superuser_witness :
  exists s',
    create_superuser (sample_world t_fresh no_fault None) "root@example.com"
      "T0psecret" [("first_name", VStr "Root"); ("accepted_terms", VBool true)]
      sample_store
      = (Return (superuser_row (sample_world t_fresh no_fault None)
                   "root@example.com" "T0psecret" sample_db), s')
    /\ users (db s')
       = [ada; superuser_row (sample_world t_fresh no_fault None)
                 "root@example.com" "T0psecret" sample_db]
    /\ CustomUser.is_superuser
         (superuser_row (sample_world t_fresh no_fault None)
            "root@example.com" "T0psecret" sample_db) = true
    /\ CustomUser.is_staff
         (superuser_row (sample_world t_fresh no_fault None)
            "root@example.com" "T0psecret" sample_db) = true
    /\ CustomUser.password
         (superuser_row (sample_world t_fresh no_fault None)
            "root@example.com" "T0psecret" sample_db)
       = "pbkdf2_sha256$T0psecret"
    /\ CustomUser.first_name
         (superuser_row (sample_world t_fresh no_fault None)
            "root@example.com" "T0psecret" sample_db) = ""
    /\ CustomUser.last_name
         (superuser_row (sample_world t_fresh no_fault None)
            "root@example.com" "T0psecret" sample_db) = ""
    /\ CustomUser.accepted_terms
         (superuser_row (sample_world t_fresh no_fault None)
            "root@example.com" "T0psecret" sample_db) = false
    /\ CustomUser.email_verified
         (superuser_row (sample_world t_fresh no_fault None)
            "root@example.com" "T0psecret" sample_db) = false.
Proof.
  apply (create_superuser_stores_staff_superuser
           (sample_world t_fresh no_fault None) (email := "root@example.com")
           "T0psecret"
           [("first_name", VStr "Root"); ("accepted_terms", VBool true)]
           sample_store).
  - discriminate.
  - reflexivity.
  - reflexivity.
  - simpl. intros x [Hx|[]]. subst x. simpl. discriminate.
Defined.

(** X5.  [create_superuser] is two writes with nothing around them: when
    the insert is accepted and the save of the flags is rejected, the call
    raises and the account stays stored as an ordinary user, neither staff
    nor superuser. *)
Theorem create_superuser_half_done (w : World) (email password : string)
    (extrafields : dict) (s : store) :
  email <> "" ->
  db_fault w (writes s) = false ->
  db_fault w (S (writes s)) = true ->
  exists u s',
    create_superuser w email password extrafields s
      = (Raise DatabaseError, s')
    /\ users (db s') = (users (db s) ++ [u])%list
    /\ CustomUser.email u = normalize_email w email
    /\ CustomUser.is_superuser u = false
    /\ CustomUser.is_staff u = false.
Proof.
  intros Hemail Hw0 Hw1.
  unfold create_superuser, bind.
  rewrite (create_user_run w password [] s Hemail Hw0).
  unfold CustomUser_save, execute. simpl. rewrite Hw1.
  eexists. eexists. split; [reflexivity|]. simpl. repeat split.
Qed.

Lemma create_superuser_half_done_witness :
  exists u s',
    create_superuser (sample_world t_fresh (fault_at 1) None)
      "root@example.com" "T0psecret" [] sample_store
      = (Raise DatabaseError, s')
    /\ users (db s') = [ada; u]
    /\ CustomUser.email u = "root@example.com"
    /\ CustomUser.is_superuser u = false
    /\ CustomUser.is_staff u = false.
Proof.
  apply (create_superuser_half_done (sample_world t_fresh (fault_at 1) None)
           (email := "root@example.com") "T0psecret" [] sample_store).
  - discriminate.
  - reflexivity.
  - reflexivity.
Defined.

(** ** Sign in, continued *)

Lemma authenticate_some (w : World) (username password : string) (s : store)
    (user : CustomUser.t) :
  fst (authenticate w username password s) = Return (Some user) ->
  In user (users (db s)) /\ CustomUser.email user = username.
Proof.
  unfold authenticate, bind, query. simpl.
  destruct (objects_get (has_email username) (users (db s))) as [u|e] eqn:Hget.
  - destruct (check_password w password (CustomUser.password u)
              && CustomUser.is_active u); simpl; intros H; inversion H.
    subst u. apply objects_get_found in Hget.
    destruct (filter_single_In _ _ Hget) as [Hin Hmail].
    split; [exact Hin|]. apply String.eqb_eq. exact Hmail.
  - destruct e; simpl; intros H; inversion H.
Qed.

(** X6.  Whatever the payload, the credentials and the outcome of the
    writes, sign-in leaves the OTP table as it was and keeps every token row
    that does not belong to a user with the submitted email: a sign-in
    cannot remove the tokens of another account. *)
Theorem signin_spares_otps_and_foreign_tokens (w : World)
    (request : Request.t) (s : store) :
  otps (db (snd (SignInView_post w request s))) = otps (db s)
  /\ forall k,
       In k (tokens (db s)) ->
       (forall email password u,
          SignInSerializer (Request.data request) = Valid (email, password) ->
          In u (users (db s)) -> CustomUser.email u = email ->
          Token.user_id k <> CustomUser.id u) ->
       In k (tokens (db (snd (SignInView_post w request s)))).
Proof.
  split.
  - unfold SignInView_post.
    destruct (SignInSerializer (Request.data request))
      as [[email password]|e]; [|reflexivity].
    unfold bind at 1.
    rewrite (surjective_pairing (authenticate w email password s)).
    rewrite authenticate_reads_only.
    destruct (fst (authenticate w email password s)) as [[user|]|e];
      try reflexivity.
    unfold Token_delete_for, Token_create, bind, execute, ret.
    destruct (db_fault w (writes s)); simpl; [reflexivity|].
    destruct (db_fault w (S (writes s))); reflexivity.
  - intros k Hk Hforeign. unfold SignInView_post.
    destruct (SignInSerializer (Request.data request))
      as [[email password]|e] eqn:Hvalid; [|exact Hk].
    unfold bind at 1.
    rewrite (surjective_pairing (authenticate w email password s)).
    rewrite authenticate_reads_only.
    destruct (fst (authenticate w email password s)) as [[user|]|e] eqn:Hauth;
      try exact Hk.
    destruct (authenticate_some w email password s Hauth) as [Hin Hmail].
    assert (Hkeep : negb (belongs_to user k) = true).
    { unfold belongs_to. apply negb_true_iff, Z.eqb_neq.
      apply (Hforeign email password user eq_refl Hin Hmail). }
    assert (Hfiltered :
      In k (filter (fun k => negb (belongs_to user k)) (tokens (db s))))
      by (apply filter_In; split; assumption).
    unfold Token_delete_for, Token_create, bind, execute, ret.
    destruct (db_fault w (writes s)); simpl; [exact Hk|].
    destruct (db_fault w (S (writes s))); simpl; [exact Hfiltered|].
    apply in_or_app. left. exact Hfiltered.
Qed.

(** On the two-user tables [ada] signs in; the token row of [bob] is kept. *)
Lemma signin_spares_otps_and_foreign_tokens_witness :
  otps (db (snd (SignInView_post (sample_world t_fresh no_fault None)
                   signin_request pair_store))) = [ada_otp]
  /\ In bob_token
        (tokens (db (snd (SignInView_post (sample_world t_fresh no_fault None)
                            signin_request pair_store)))).
Proof.
  destruct (signin_spares_otps_and_foreign_tokens
              (sample_world t_fresh no_fault None) signin_request pair_store)
    as [Hotps Htokens].
  split; [exact Hotps|].
  apply (Htokens bob_token).
  - left. reflexivity.
  - intros email password u Hvalid Hu Hmail. inversion Hvalid; subst.
    simpl in Hu. destruct Hu as [Hu|[Hu|[]]]; subst u; simpl in *;
      discriminate.
Defined.

(** X7.  The token replacement is delete-then-create with nothing around
    it: when the delete is accepted and the create is rejected, the request
    raises and the user is left without any token row, the rows of the other
    users being kept. *)
Theorem signin_failed_create_loses_tokens (w : World) (request : Request.t)
    (s : store) (email password : string) (user : CustomUser.t) :
  SignInSerializer (Request.data request) = Valid (email, password) ->
  fst (authenticate w email password s) = Return (Some user) ->
  db_fault w (writes s) = false ->
  db_fault w (S (writes s)) = true ->
  exists s',
    SignInView_post w request s = (Raise DatabaseError, s')
    /\ filter (belongs_to user) (tokens (db s')) = []
    /\ tokens (db s')
       = filter (fun k => negb (belongs_to user k)) (tokens (db s)).
Proof.
  intros Hvalid Hauth Hw0 Hw1.
  unfold SignInView_post. rewrite Hvalid. unfold bind at 1.
  rewrite (surjective_pairing (authenticate w email password s)).
  rewrite Hauth, authenticate_reads_only.
  unfold Token_delete_for, Token_create, bind, execute.
  rewrite Hw0. simpl. rewrite Hw1.
  eexists. split; [reflexivity|]. simpl.
  split; [apply filter_negb_none|reflexivity].
Qed.

Lemma signin_failed_create_loses_tokens_witness :
  exists s',
    SignInView_post (sample_world t_fresh (fault_at 1) None) signin_request
      pair_store = (Raise DatabaseError, s')
    /\ filter (belongs_to ada) (tokens (db s')) = []
    /\ tokens (db s') = [bob_token].
Proof.
  apply (signin_failed_create_loses_tokens
           (sample_world t_fresh (fault_at 1) None) signin_request pair_store
           (email := "ada@example.com") (password := "Secret123")
           (user := ada));
    reflexivity.
Defined.

(** X8.  An account with [is_active = False] cannot sign in: even with the
    password that checks against its hash the answer is the generic 400,
    and the token and OTP tables are left as they were. *)
Theorem signin_rejects_inactive_user (w : World) (request : Request.t)
    (s : store) (email password : string) (u : CustomUser.t) :
  SignInSerializer (Request.data request) = Valid (email, password) ->
  filter (has_email email) (users (db s)) = [u] ->
  CustomUser.is_active u = false ->
  fst (SignInView_post w request s) = Return response_invalid_credentials
  /\ tokens (db (snd (SignInView_post w request s))) = tokens (db s)
  /\ otps (db (snd (SignInView_post w request s))) = otps (db s).
Proof.
  intros Hvalid Hu Hinactive.
  assert (Hrun :
    SignInView_post w request s = (Return response_invalid_credentials, s)).
  { unfold SignInView_post. rewrite Hvalid.
    unfold authenticate, bind, query.
    rewrite (objects_get_single _ _ Hu), Hinactive, andb_false_r.
    reflexivity. }
  rewrite Hrun. repeat split.
Qed.

Lemma signin_rejects_inactive_user_witness :
  fst (SignInView_post (sample_world t_fresh no_fault None)
         (request_of [("email", VStr "bob@example.com");
                      ("password", VStr "Hunter2")]) pair_store)
  = Return response_invalid_credentials
  /\ tokens (db (snd (SignInView_post (sample_world t_fresh no_fault None)
                        (request_of [("email", VStr "bob@example.com");
                                     ("password", VStr "Hunter2")])
                        pair_store))) = [bob_token; ada_token]
  /\ otps (db (snd (SignInView_post (sample_world t_fresh no_fault None)
                      (request_of [("email", VStr "bob@example.com");
                                   ("password", VStr "Hunter2")])
                      pair_store))) = [ada_otp].
Proof.
  apply (signin_rejects_inactive_user (sample_world t_fresh no_fault None)
           (request_of [("email", VStr "bob@example.com");
                        ("password", VStr "Hunter2")]) pair_store
           (email := "bob@example.com") (password := "Hunter2") (u := bob));
    reflexivity.
Defined.

(** ** Refresh token, continued *)

Lemma refresh_run (w : World) (request : Request.t) (s : store)
    (cookie : string) (active_token : Token.t) :
  cookies_get "refresh_token" (Request.COOKIES request) = Some cookie ->
  filter (has_refresh (Some cookie)) (tokens (db s)) = [active_token] ->
  verify_token w cookie = true ->
  db_fault w (writes s) = false ->
  RefreshTokenView_get w request s
  = (Return (refresh_response w active_token),
     {| db := with_tokens
                (saved Token.id (refreshed_token w active_token)
                   (tokens (db s))) (db s);
        writes := S (writes s);
        events := events s |}).
Proof.
  intros Hcookie Hrow Hverify Hw.
  unfold RefreshTokenView_get. rewrite Hcookie.
  unfold try_except_DoesNotExist, Token_get_by_refresh, bind, query, lift.
  rewrite (objects_get_single _ _ Hrow). rewrite Hverify. simpl.
  unfold Token_save, execute. rewrite Hw. reflexivity.
Qed.

(** X9.  Sign-in followed by a refresh that presents the cookie sign-in
    set: when no token row of another user holds the same refresh value and
    the cookie verifies, the refresh finds the row sign-in created and
    answers 200 with an access token whose [user_id] claim is the primary
    key that row was given, the next value of the token sequence, whoever
    the user is. *)
Theorem signin_then_refresh (w1 w2 : World) (request1 request2 : Request.t)
    (s : store) (email password : string) (user : CustomUser.t) :
  SignInSerializer (Request.data request1) = Valid (email, password) ->
  fst (authenticate w1 email password s) = Return (Some user) ->
  db_fault w1 (writes s) = false ->
  db_fault w1 (S (writes s)) = false ->
  (forall k, In k (tokens (db s)) -> belongs_to user k = false ->
             Token.refresh k <> get_refresh_token w1) ->
  cookies_get "refresh_token" (Request.COOKIES request2)
    = Some (get_refresh_token w1) ->
  verify_token w2 (get_refresh_token w1) = true ->
  db_fault w2 (S (S (writes s))) = false ->
  exists s1 s2,
    SignInView_post w1 request1 s = (Return (signin_response w1 user), s1)
    /\ RefreshTokenView_get w2 request2 s1
       = (Return (refresh_response w2 (signin_token w1 user (db s))), s2)
    /\ dict_get "access_token"
         (Response.data (refresh_response w2 (signin_token w1 user (db s))))
       = Some (VStr (get_access_token w2 [("user_id", token_seq (db s))])).
Proof.
  intros Hvalid Hauth Hw0 Hw1 Hothers Hcookie Hverify Hw2.
  eexists. eexists. split.
  - apply (signin_run w1 request1 s Hvalid Hauth Hw0 Hw1).
  - split; [|reflexivity].
    apply (refresh_run w2 request2 _ Hcookie); [|exact Hverify|exact Hw2].
    simpl. rewrite filter_app. simpl. rewrite String.eqb_refl.
    rewrite filter_none; [reflexivity|].
    intros k Hk. apply filter_In in Hk. destruct Hk as [Hk Hnot].
    apply String.eqb_neq. apply Hothers; [exact Hk|].
    destruct (belongs_to user k); [discriminate|reflexivity].
Qed.

Lemma signin_then_refresh_witness :
  exists s1 s2,
    SignInView_post (sample_world t_fresh no_fault None) signin_request
      pair_store
      = (Return (signin_response (sample_world t_fresh no_fault None) ada),
         s1)
    /\ RefreshTokenView_get later_world
         (request_with_cookies [("refresh_token", "refresh.new")]) s1
       = (Return
            (refresh_response later_world
               (signin_token (sample_world t_fresh no_fault None) ada
                  pair_db)), s2)
    /\ dict_get "access_token"
         (Response.data
            (refresh_response later_world
               (signin_token (sample_world t_fresh no_fault None) ada
                  pair_db)))
       = Some (VStr "access.10").
Proof.
  apply (signin_then_refresh (sample_world t_fresh no_fault None) later_world
           signin_request
           (request_with_cookies [("refresh_token", "refresh.new")])
           pair_store
           (email := "ada@example.com") (password := "Secret123")
           (user := ada)); try reflexivity.
  simpl. intros k [Hk|[Hk|[]]]; subst k; simpl; intros H; discriminate.
Defined.

(** X10.  A refresh request without the cookie, or with a cookie value no
    token row holds, is answered 400 "Refresh token not found." and nothing
    is written. *)
Theorem refresh_unknown_cookie (w : World) (request : Request.t) (s : store) :
  (forall k, In k (tokens (db s)) ->
     cookies_get "refresh_token" (Request.COOKIES request)
     <> Some (Token.refresh k)) ->
  RefreshTokenView_get w request s = (Return response_refresh_not_found, s).
Proof.
  intros Hnone. unfold RefreshTokenView_get.
  unfold try_except_DoesNotExist, Token_get_by_refresh, bind, query, lift.
  rewrite objects_get_none; [reflexivity|].
  intros k Hk. specialize (Hnone k Hk). unfold has_refresh.
  destruct (cookies_get "refresh_token" (Request.COOKIES request)) as [c|];
    [|reflexivity].
  apply String.eqb_neq. intros E. apply Hnone. rewrite E. reflexivity.
Qed.

Lemma refresh_unknown_cookie_witness :
  RefreshTokenView_get (sample_world t_fresh no_fault None)
    (request_with_cookies []) pair_store
  = (Return response_refresh_not_found, pair_store).
Proof.
  apply (refresh_unknown_cookie (sample_world t_fresh no_fault None)
           (request_with_cookies []) pair_store).
  intros k _. discriminate.
Defined.

(** X11.  A refresh request whose cookie selects a token row but does not
    verify is answered 400 "Refresh token invalid or expired." and nothing
    is written: the row keeps its access and refresh values. *)
Theorem refresh_unverified_cookie (w : World) (request : Request.t)
    (s : store) (cookie : string) (active_token : Token.t) :
  cookies_get "refresh_token" (Request.COOKIES request) = Some cookie ->
  filter (has_refresh (Some cookie)) (tokens (db s)) = [active_token] ->
  verify_token w cookie = false ->
  RefreshTokenView_get w request s = (Return response_refresh_invalid, s).
Proof.
  intros Hcookie Hrow Hverify.
  unfold RefreshTokenView_get. rewrite Hcookie.
  unfold try_except_DoesNotExist, Token_get_by_refresh, bind, query, lift.
  rewrite (objects_get_single _ _ Hrow). rewrite Hverify. reflexivity.
Qed.

Lemma refresh_unverified_cookie_witness :
  RefreshTokenView_get (sample_world t_fresh no_fault None)
    (request_with_cookies [("refresh_token", "refresh.bob")]) pair_store
  = (Return response_refresh_invalid, pair_store).
Proof.
  apply (refresh_unverified_cookie (sample_world t_fresh no_fault None)
           (request_with_cookies [("refresh_token", "refresh.bob")])
           pair_store (cookie := "refresh.bob") (active_token := bob_token));
    reflexivity.
Defined.

(** X12.  Refresh tokens rotate: after a successful refresh that issued a
    refresh value other than the one presented, the presented cookie selects
    no row any more, and presenting it again is answered 400 "Refresh token
    not found." in any later world. *)
Theorem refresh_replay_rejected (w : World) (request : Request.t) (s : store)
    (cookie : string) (active_token : Token.t) :
  cookies_get "refresh_token" (Request.COOKIES request) = Some cookie ->
  filter (has_refresh (Some cookie)) (tokens (db s)) = [active_token] ->
  verify_token w cookie = true ->
  db_fault w (writes s) = false ->
  get_refresh_token w <> cookie ->
  exists s',
    RefreshTokenView_get w request s
      = (Return (refresh_response w active_token), s')
    /\ forall w',
         RefreshTokenView_get w' request s'
         = (Return response_refresh_not_found, s').
Proof.
  intros Hcookie Hrow Hverify Hw Hrotated.
  eexists. split.
  - apply (refresh_run w request s Hcookie Hrow Hverify Hw).
  - intros w'. unfold RefreshTokenView_get. rewrite Hcookie.
    unfold try_except_DoesNotExist, Token_get_by_refresh, bind, query, lift.
    simpl.
    destruct (filter_single_In _ _ Hrow) as [Hin _].
    rewrite (saved_present Token.id (refreshed_token w active_token)
               active_token (tokens (db s)) Hin eq_refl).
    unfold objects_get.
    rewrite (filter_replace_pk_none (has_refresh (Some cookie)) Token.id
               (r := active_token) (refreshed_token w active_token)
               (tokens (db s)) Hrow eq_refl).
    + reflexivity.
    + simpl. apply String.eqb_neq. exact Hrotated.
Qed.

Lemma refresh_replay_rejected_witness :
  exists s',
    RefreshTokenView_get (sample_world t_fresh no_fault None)
      (request_with_cookies [("refresh_token", "refresh.old")]) pair_store
      = (Return (refresh_response (sample_world t_fresh no_fault None)
                   ada_token), s')
    /\ forall w',
         RefreshTokenView_get w'
           (request_with_cookies [("refresh_token", "refresh.old")]) s'
         = (Return response_refresh_not_found, s').
Proof.
  apply (refresh_replay_rejected (sample_world t_fresh no_fault None)
           (request_with_cookies [("refresh_token", "refresh.old")])
           pair_store (cookie := "refresh.old") (active_token := ada_token));
    try reflexivity.
  simpl. discriminate.
Defined.

Lemma refresh_db_cases (w : World) (request : Request.t) (s : store) :
  db (snd (RefreshTokenView_get w request s)) = db s
  \/ exists k r,
       In k (tokens (db s)) /\ Token.id k = Token.id r
       /\ db (snd (RefreshTokenView_get w request s))
          = with_tokens (saved Token.id r (tokens (db s))) (db s).
Proof.
  unfold RefreshTokenView_get.
  unfold try_except_DoesNotExist, Token_get_by_refresh, bind, query, lift,
    objects_get.
  destruct (filter
              (has_refresh
                 (cookies_get "refresh_token" (Request.COOKIES request)))
              (tokens (db s))) as [|k [|k' rest]] eqn:Hrows;
    [left; reflexivity| |left; reflexivity].
  destruct (filter_single_In _ _ Hrows) as [Hin _].
  destruct (negb _); [left; reflexivity|].
  unfold Token_save, execute.
  destruct (db_fault w (writes s)); simpl; [left; reflexivity|].
  right. eexists k, _. split; [exact Hin|]. split; [|reflexivity].
  reflexivity.
Qed.

(** X13.  Whatever the cookie, the verification and the outcome of the
    write, a refresh creates and deletes no row: the token table keeps its
    number of rows, and the user and OTP tables are as they were. *)
Theorem refresh_creates_and_deletes_nothing (w : World) (request : Request.t)
    (s : store) :
  List.length (tokens (db (snd (RefreshTokenView_get w request s))))
  = List.length (tokens (db s))
  /\ users (db (snd (RefreshTokenView_get w request s))) = users (db s)
  /\ otps (db (snd (RefreshTokenView_get w request s))) = otps (db s).
Proof.
  destruct (refresh_db_cases w request s) as [Hsame|[k [r [Hin [Hpk Hdb]]]]].
  - rewrite Hsame. repeat split.
  - rewrite Hdb. simpl. repeat split.
    apply (saved_length Token.id r k (tokens (db s)) Hin Hpk).
Qed.

(** ** Change password, continued *)

Lemma change_password_run (w : World) (request : Request.t) (s : store)
    (user : CustomUser.t) (old_password new_password : string) :
  Request.user request = Some user ->
  ChangePasswordSerializer (Request.data request)
    = Valid (old_password, new_password) ->
  check_password w old_password (CustomUser.password user) = true ->
  db_fault w (writes s) = false ->
  ChangePasswordView_post w request s
  = (Return response_password_changed,
     {| db := with_users
                (saved CustomUser.id (repassworded w new_password user)
                   (users (db s))) (db s);
        writes := S (writes s);
        events := events s ++
          [event_for (Some user) "password-success"
             "Password changed successfully."] |}).
Proof.
  intros Huser Hvalid Hpw Hw.
  unfold ChangePasswordView_post. rewrite Huser, Hvalid, Hpw.
  unfold CustomUser_save, bind, execute. rewrite Hw. reflexivity.
Qed.

(** X14.  A change-password request of a stored user whose old password
    checks, on a database that accepts the write, is answered 200; every
    stored row with the user's primary key then holds the hasher's output
    for the new password, the number of users is unchanged, and one
    "password-success" event is recorded. *)
Theorem change_password_success (w : World) (request : Request.t) (s : store)
    (user : CustomUser.t) (old_password new_password : string) :
  Request.user request = Some user ->
  ChangePasswordSerializer (Request.data request)
    = Valid (old_password, new_password) ->
  check_password w old_password (CustomUser.password user) = true ->
  db_fault w (writes s) = false ->
  In user (users (db s)) ->
  exists s',
    ChangePasswordView_post w request s = (Return response_password_changed, s')
    /\ In (repassworded w new_password user) (users (db s'))
    /\ (forall u, In u (users (db s')) ->
          CustomUser.id u = CustomUser.id user ->
          CustomUser.password u = make_password w new_password)
    /\ List.length (users (db s')) = List.length (users (db s))
    /\ events s'
       = (events s ++
          [event_for (Some user) "password-success"
             "Password changed successfully."])%list.
Proof.
  intros Huser Hvalid Hpw Hw Hin.
  eexists. split.
  - apply (change_password_run w request s Huser Hvalid Hpw Hw).
  - simpl.
    rewrite (saved_present CustomUser.id (repassworded w new_password user)
               user (users (db s)) Hin eq_refl).
    split; [|split; [|split]].
    + apply (replace_pk_has CustomUser.id _ user); [exact Hin|reflexivity].
    + intros u Hu Hid.
      rewrite (replace_pk_In CustomUser.id (repassworded w new_password user)
                 u _ Hu Hid).
      reflexivity.
    + apply replace_pk_length.
    + reflexivity.
Qed.

Lemma change_password_success_witness :
  exists s',
    ChangePasswordView_post (sample_world t_fresh no_fault None)
      (request_as ada [("old_password", VStr "Secret123");
                       ("new_password", VStr "Changed456")]) pair_store
      = (Return response_password_changed, s')
    /\ In (repassworded (sample_world t_fresh no_fault None) "Changed456" ada)
          (users (db s'))
    /\ (forall u, In u (users (db s')) -> CustomUser.id u = 1 ->
          CustomUser.password u = "pbkdf2_sha256$Changed456")
    /\ List.length (users (db s')) = 2%nat
    /\ events s'
       = [event_for (Some ada) "password-success"
            "Password changed successfully."].
Proof.
  apply (change_password_success (sample_world t_fresh no_fault None)
           (request_as ada [("old_password", VStr "Secret123");
                            ("new_password", VStr "Changed456")]) pair_store
           (user := ada) (old_password := "Secret123")
           (new_password := "Changed456")); try reflexivity.
  left. reflexivity.
Defined.

(** X15.  A password change never touches the token or the OTP table,
    whatever the request and the outcome of the write: the token rows issued
    before the change are still stored after it. *)
Theorem change_password_keeps_tokens (w : World) (request : Request.t)
    (s : store) :
  tokens (db (snd (ChangePasswordView_post w request s))) = tokens (db s)
  /\ otps (db (snd (ChangePasswordView_post w request s))) = otps (db s).
Proof.
  split; unfold ChangePasswordView_post;
    (destruct (Request.user request) as [user|]; [|reflexivity]);
    (destruct (ChangePasswordSerializer (Request.data request))
       as [[old_password new_password]|errors]; [|reflexivity]);
    (destruct (check_password w old_password (CustomUser.password user));
       [|reflexivity]);
    unfold CustomUser_save, bind, execute;
    destruct (db_fault w (writes s)); reflexivity.
Qed.

(** X16.  A change-password request whose payload the serializer rejects is
    answered 400 with status "error" and the serializer's errors, the tables
    are left as they were, and one "password-failure" event is recorded. *)
Theorem change_password_invalid_payload (w : World) (request : Request.t)
    (s : store) (user : CustomUser.t) (errors : dict) :
  Request.user request = Some user ->
  ChangePasswordSerializer (Request.data request) = Invalid errors ->
  ChangePasswordView_post w request s
  = (Return
       (Response_ (dict_update [("status", VStr "error")] errors) 400),
     {| db := db s;
        writes := writes s;
        events := events s ++
          [event_for (Some user) "password-failure"
             "Password failed to change"] |}).
Proof.
  intros Huser Hinvalid.
  unfold ChangePasswordView_post. rewrite Huser, Hinvalid. reflexivity.
Qed.

Lemma change_password_invalid_payload_witness :
  ChangePasswordView_post (sample_world t_fresh no_fault None)
    (request_as ada [("old_password", VStr "Secret123")]) pair_store
  = (Return
       (Response_
          [("status", VStr "error");
           ("new_password", VStr "This field is required.")] 400),
     {| db := pair_db;
        writes := 0;
        events := [event_for (Some ada) "password-failure"
                     "Password failed to change"] |}).
Proof.
  apply (change_password_invalid_payload (sample_world t_fresh no_fault None)
           (request_as ada [("old_password", VStr "Secret123")]) pair_store
           (user := ada)
           (errors := [("new_password", VStr "This field is required.")]));
    reflexivity.
Defined.

(** X17.  A password change followed by sign-ins: with unique primary keys
    and emails, an active stored user, and a hasher under which the new
    password checks against its own hash and the old one does not, the new
    password then signs the user in and the old password is answered the
    generic 400. *)
Theorem change_password_then_signin (w w' : World)
    (request signin_new signin_old : Request.t) (s : store)
    (user : CustomUser.t) (old_password new_password : string) :
  Request.user request = Some user ->
  ChangePasswordSerializer (Request.data request)
    = Valid (old_password, new_password) ->
  check_password w old_password (CustomUser.password user) = true ->
  db_fault w (writes s) = false ->
  In user (users (db s)) ->
  NoDup (map CustomUser.id (users (db s))) ->
  (forall u, In u (users (db s)) -> CustomUser.id u <> CustomUser.id user ->
             CustomUser.email u <> CustomUser.email user) ->
  CustomUser.is_active user = true ->
  SignInSerializer (Request.data signin_new)
    = Valid (CustomUser.email user, new_password) ->
  SignInSerializer (Request.data signin_old)
    = Valid (CustomUser.email user, old_password) ->
  check_password w' new_password (make_password w new_password) = true ->
  check_password w' old_password (make_password w new_password) = false ->
  db_fault w' (S (writes s)) = false ->
  db_fault w' (S (S (writes s))) = false ->
  exists s1 s2,
    ChangePasswordView_post w request s = (Return response_password_changed, s1)
    /\ SignInView_post w' signin_old s1
       = (Return response_invalid_credentials, s1)
    /\ SignInView_post w' signin_new s1
       = (Return (signin_response w' (repassworded w new_password user)), s2).
Proof.
  intros Huser Hvalid Hpw Hw Hin Hnd Hemail Hactive Hnew Hold Hcheck Hstale
    Hw1 Hw2.
  eexists. eexists. split.
  - apply (change_password_run w request s Huser Hvalid Hpw Hw).
  - assert (Hrow :
      filter (has_email (CustomUser.email user))
        (saved CustomUser.id (repassworded w new_password user) (users (db s)))
      = [repassworded w new_password user]).
    { rewrite (saved_present CustomUser.id (repassworded w new_password user)
                 user (users (db s)) Hin eq_refl).
      apply (@filter_replace_pk_single _
               (has_email (CustomUser.email user)) CustomUser.id user);
        try assumption.
      - reflexivity.
      - unfold has_email. simpl. apply String.eqb_refl.
      - intros u Hu Hid. unfold has_email. apply String.eqb_neq.
        apply Hemail; assumption. }
    split.
    + unfold SignInView_post. rewrite Hold.
      unfold authenticate, bind, query. simpl.
      rewrite (objects_get_single _ _ Hrow). simpl. rewrite Hstale.
      reflexivity.
    + apply (signin_run w' signin_new _ Hnew); simpl; try assumption.
      unfold authenticate, bind, query. simpl.
      rewrite (objects_get_single _ _ Hrow). simpl.
      rewrite Hcheck, Hactive. reflexivity.
Qed.

Lemma change_password_then_signin_witness :
  exists s1 s2,
    ChangePasswordView_post (sample_world t_fresh no_fault None)
      (request_as ada [("old_password", VStr "Secret123");
                       ("new_password", VStr "Changed456")]) pair_store
      = (Return response_password_changed, s1)
    /\ SignInView_post later_world signin_request s1
       = (Return response_invalid_credentials, s1)
    /\ SignInView_post later_world
         (request_of [("email", VStr "ada@example.com");
                      ("password", VStr "Changed456")]) s1
       = (Return
            (signin_response later_world
               (repassworded (sample_world t_fresh no_fault None)
                  "Changed456" ada)), s2).
Proof.
  apply (change_password_then_signin (sample_world t_fresh no_fault None)
           later_world
           (request_as ada [("old_password", VStr "Secret123");
                            ("new_password", VStr "Changed456")])
           (request_of [("email", VStr "ada@example.com");
                        ("password", VStr "Changed456")])
           signin_request pair_store (user := ada)
           (old_password := "Secret123") (new_password := "Changed456"));
    try reflexivity.
  - left. reflexivity.
  - simpl. repeat constructor; simpl; intuition discriminate.
  - simpl. intros u [Hu|[Hu|[]]] Hid; subst u; simpl in *;
      [contradiction|discriminate].
Defined.

(** ** Resend OTP, continued *)

(** X18.  A resend request for an email that owns no OTP record is answered
    404 "Email not associated to user or otp"; no OTP is stored, no mail is
    attempted and no event is recorded. *)
Theorem resend_otp_unknown_email (w : World) (request : Request.t) (s : store)
    (email : string) :
  ResendOTPSerializer (Request.data request) = Valid email ->
  (forall r, In r (otps (db s)) ->
             has_user_email (users (db s)) email r = false) ->
  ResendOTPView_post w request s = (Return response_otp_not_associated, s).
Proof.
  intros Hvalid Hnone.
  unfold ResendOTPView_post. rewrite Hvalid.
  unfold try_except_DoesNotExist, OTP_get_by_user_email, bind, query, lift.
  rewrite (objects_get_none _ _ Hnone). reflexivity.
Qed.

Lemma resend_otp_unknown_email_witness :
  ResendOTPView_post (sample_world t_fresh no_fault None)
    (request_of [("email", VStr "bob@example.com")]) pair_store
  = (Return response_otp_not_associated, pair_store).
Proof.
  apply (resend_otp_unknown_email (sample_world t_fresh no_fault None)
           (request_of [("email", VStr "bob@example.com")]) pair_store
           (email := "bob@example.com")).
  - reflexivity.
  - simpl. intros r [Hr|[]]. subst r. reflexivity.
Defined.

Lemma resend_otp_run (w : World) (request : Request.t) (s : store)
    (email : string) (user_otp : OTP.t) :
  ResendOTPSerializer (Request.data request) = Valid email ->
  filter (has_user_email (users (db s)) email) (otps (db s)) = [user_otp] ->
  db_fault w (writes s) = false ->
  resend_dispatch w email = None ->
  ResendOTPView_post w request s
  = (Return response_otp_sent,
     {| db := with_otps (saved OTP.id (resent_otp w user_otp) (otps (db s)))
                (db s);
        writes := S (writes s);
        events := events s ++
          [event_for (Request.user request) "otp-success"
             "OTP sent successful"] |}).
Proof.
  intros Hvalid Hrow Hw Hmail.
  unfold ResendOTPView_post. rewrite Hvalid.
  unfold try_except_DoesNotExist, OTP_get_by_user_email, bind, query, lift.
  rewrite (objects_get_single _ _ Hrow).
  unfold OTP_save, execute. rewrite Hw.
  unfold resend_dispatch in Hmail. rewrite Hmail. reflexivity.
Qed.

(** X19.  A resend request for an account with an OTP record, on a database
    that accepts the write and a mail transport that takes the message, is
    answered 200; the record then holds the newly generated OTP and its
    [updated_at] is the time of the request, so the validity window starts
    again. *)
Theorem resend_otp_success (w : World) (request : Request.t) (s : store)
    (email : string) (user_otp : OTP.t) :
  ResendOTPSerializer (Request.data request) = Valid email ->
  filter (has_user_email (users (db s)) email) (otps (db s)) = [user_otp] ->
  db_fault w (writes s) = false ->
  resend_dispatch w email = None ->
  exists s',
    ResendOTPView_post w request s = (Return response_otp_sent, s')
    /\ In (resent_otp w user_otp) (otps (db s'))
    /\ (forall r, In r (otps (db s')) -> OTP.id r = OTP.id user_otp ->
          OTP.generated_otp r = Some (generate_otp w)
          /\ OTP.updated_at r = now w)
    /\ users (db s') = users (db s)
    /\ tokens (db s') = tokens (db s).
Proof.
  intros Hvalid Hrow Hw Hmail.
  eexists. split.
  - apply (resend_otp_run w request s Hvalid Hrow Hw Hmail).
  - simpl. destruct (filter_single_In _ _ Hrow) as [Hin _].
    rewrite (saved_present OTP.id (resent_otp w user_otp) user_otp
               (otps (db s)) Hin eq_refl).
    split; [|split; [|split; reflexivity]].
    + apply (replace_pk_has OTP.id _ user_otp); [exact Hin|reflexivity].
    + intros r Hr Hid.
      rewrite (replace_pk_In OTP.id (resent_otp w user_otp) r _ Hr Hid).
      split; reflexivity.
Qed.

Lemma resend_otp_success_witness :
  exists s',
    ResendOTPView_post (sample_world t_stale no_fault None)
      (request_of [("email", VStr "ada@example.com")]) pair_store
      = (Return response_otp_sent, s')
    /\ In (resent_otp (sample_world t_stale no_fault None) ada_otp)
          (otps (db s'))
    /\ (forall r, In r (otps (db s')) -> OTP.id r = 3 ->
          OTP.generated_otp r = Some 654321 /\ OTP.updated_at r = t_stale)
    /\ users (db s') = [ada; bob]
    /\ tokens (db s') = [bob_token; ada_token].
Proof.
  apply (resend_otp_success (sample_world t_stale no_fault None)
           (request_of [("email", VStr "ada@example.com")]) pair_store
           (email := "ada@example.com") (user_otp := ada_otp));
    reflexivity.
Defined.

(** X20.  Resend, then validate the value that was sent: with unique OTP
    primary keys, no other record holding the new value, the owner on file
    and at most five minutes between the two requests, the validation is
    answered 200 and every stored row of the owner is marked verified. *)
Theorem resend_then_validate (w w' : World) (request request' : Request.t)
    (s : store) (email : string) (user_otp : OTP.t) (owner : CustomUser.t) :
  ResendOTPSerializer (Request.data request) = Valid email ->
  filter (has_user_email (users (db s)) email) (otps (db s)) = [user_otp] ->
  db_fault w (writes s) = false ->
  resend_dispatch w email = None ->
  NoDup (map OTP.id (otps (db s))) ->
  (forall r, In r (otps (db s)) -> OTP.id r <> OTP.id user_otp ->
             OTP.generated_otp r <> Some (generate_otp w)) ->
  OTPSerializer (Request.data request') = Valid (generate_otp w) ->
  now w' - now w <= 5 * 60 * 1000000 ->
  filter (fun u => CustomUser.id u =? OTP.user_id user_otp) (users (db s))
    = [owner] ->
  db_fault w' (S (writes s)) = false ->
  db_fault w' (S (S (writes s))) = false ->
  exists s1 s2,
    ResendOTPView_post w request s = (Return response_otp_sent, s1)
    /\ ValidateOTPView_post w' request' s1
       = (Return response_otp_validated, s2)
    /\ (forall u, In u (users (db s2)) ->
          CustomUser.id u = CustomUser.id owner ->
          CustomUser.email_verified u = true).
Proof.
  intros Hvalid Hrow Hw Hmail Hnd Hothers Hvalid' Hage Howner Hw1 Hw2.
  destruct (filter_single_In _ _ Hrow) as [Hin _].
  destruct (filter_single_In _ _ Howner) as [Hown _].
  eexists. eexists. split.
  - apply (resend_otp_run w request s Hvalid Hrow Hw Hmail).
  - assert (Hsel :
      filter (has_generated_otp (generate_otp w))
        (saved OTP.id (resent_otp w user_otp) (otps (db s)))
      = [resent_otp w user_otp]).
    { rewrite (saved_present OTP.id (resent_otp w user_otp) user_otp
                 (otps (db s)) Hin eq_refl).
      apply (@filter_replace_pk_single _
               (has_generated_otp (generate_otp w)) OTP.id user_otp);
        try assumption.
      - reflexivity.
      - unfold has_generated_otp. simpl. apply Z.eqb_refl.
      - intros r Hr Hid. apply has_generated_otp_false.
        apply Hothers; assumption. }
    split.
    + apply (validate_otp_fresh_succeeds w' request'
               (otp := generate_otp w) _ (user_otp := resent_otp w user_otp)
               (owner := owner)); simpl; assumption.
    + simpl. intros u Hu Hid.
      rewrite (saved_present CustomUser.id
                 (CustomUser.touched (now w')
                    (CustomUser.with_email_verified true owner))
                 owner (users (db s)) Hown eq_refl) in Hu.
      rewrite (replace_pk_In CustomUser.id
                 (CustomUser.touched (now w')
                    (CustomUser.with_email_verified true owner))
                 u _ Hu Hid).
      reflexivity.
Qed.

Lemma resend_then_validate_witness :
  exists s1 s2,
    ResendOTPView_post (sample_world t_fresh no_fault None)
      (request_of [("email", VStr "ada@example.com")]) collision_store
      = (Return response_otp_sent, s1)
    /\ ValidateOTPView_post later_world
         (request_of [("otp", VInt 654321)]) s1
       = (Return response_otp_validated, s2)
    /\ (forall u, In u (users (db s2)) -> CustomUser.id u = 1 ->
          CustomUser.email_verified u = true).
Proof.
  apply (resend_then_validate (sample_world t_fresh no_fault None) later_world
           (request_of [("email", VStr "ada@example.com")])
           (request_of [("otp", VInt 654321)]) collision_store
           (email := "ada@example.com") (user_otp := ada_otp) (owner := ada));
    try reflexivity.
  - simpl. repeat constructor; simpl; intuition discriminate.
  - simpl. intros r [Hr|[Hr|[]]] Hid; subst r; simpl in *;
      [contradiction|discriminate].
  - simpl. unfold t_stale, t_fresh. lia.
Defined.

(** X21.  A resend invalidates the value it replaces: when the record held
    [old], the new value differs and no other record holds [old], a
    validation of [old] after the resend is answered 404 "Invalid OTP",
    whether or not the mail went out. *)
Theorem resend_invalidates_old_otp (w w' : World) (request request' : Request.t)
    (s : store) (email : string) (user_otp : OTP.t) (old : Z) :
  ResendOTPSerializer (Request.data request) = Valid email ->
  filter (has_user_email (users (db s)) email) (otps (db s)) = [user_otp] ->
  db_fault w (writes s) = false ->
  filter (has_generated_otp old) (otps (db s)) = [user_otp] ->
  generate_otp w <> old ->
  OTPSerializer (Request.data request') = Valid old ->
  ValidateOTPView_post w' request' (snd (ResendOTPView_post w request s))
  = (Return response_invalid_otp, snd (ResendOTPView_post w request s)).
Proof.
  intros Hvalid Hrow Hw Hold Hnew Hvalid'.
  destruct (filter_single_In _ _ Hrow) as [Hin _].
  assert (Hdb :
    otps (db (snd (ResendOTPView_post w request s)))
    = replace_pk OTP.id (resent_otp w user_otp) (otps (db s))).
  { unfold ResendOTPView_post. rewrite Hvalid.
    unfold try_except_DoesNotExist, OTP_get_by_user_email, bind, query, lift.
    rewrite (objects_get_single _ _ Hrow).
    unfold OTP_save, execute. rewrite Hw.
    rewrite <- (saved_present OTP.id (resent_otp w user_otp) user_otp
                  (otps (db s)) Hin eq_refl).
    destruct (send_email w _ _ _ _); reflexivity. }
  unfold ValidateOTPView_post. rewrite Hvalid'.
  unfold try_except_DoesNotExist, OTP_get_by_generated_otp, bind, query, lift,
    objects_get.
  rewrite Hdb.
  rewrite (@filter_replace_pk_none _ (has_generated_otp old) OTP.id user_otp
             (resent_otp w user_otp) (otps (db s)) Hold eq_refl).
  - reflexivity.
  - apply has_generated_otp_false. simpl. intros E. inversion E.
    contradiction.
Qed.

Lemma resend_invalidates_old_otp_witness :
  ValidateOTPView_post later_world (request_of [("otp", VInt 123456)])
    (snd (ResendOTPView_post (sample_world t_fresh no_fault (Some "down"))
            (request_of [("email", VStr "ada@example.com")]) pair_store))
  = (Return response_invalid_otp,
     snd (ResendOTPView_post (sample_world t_fresh no_fault (Some "down"))
            (request_of [("email", VStr "ada@example.com")]) pair_store)).
Proof.
  apply (resend_invalidates_old_otp
           (sample_world t_fresh no_fault (Some "down")) later_world
           (request_of [("email", VStr "ada@example.com")])
           (request_of [("otp", VInt 123456)]) pair_store
           (email := "ada@example.com") (user_otp := ada_otp)
           (old := 123456)); try reflexivity.
  simpl. discriminate.
Defined.

(** ** Validate OTP, continued *)

(** X22.  A validation inside the window, the boundary of exactly five
    minutes included, with the owner on file and both writes accepted, is
    answered 200; afterwards the record's OTP slot is empty, every stored
    row of the owner is marked verified, and the token table is as it
    was. *)
Theorem validate_otp_success_effects (w : World) (request : Request.t)
    (otp : Z) (s : store) (user_otp : OTP.t) (owner : CustomUser.t) :
  OTPSerializer (Request.data request) = Valid otp ->
  filter (has_generated_otp otp) (otps (db s)) = [user_otp] ->
  now w - OTP.updated_at user_otp <= 5 * 60 * 1000000 ->
  filter (fun u => CustomUser.id u =? OTP.user_id user_otp) (users (db s))
    = [owner] ->
  db_fault w (writes s) = false ->
  db_fault w (S (writes s)) = false ->
  exists s',
    ValidateOTPView_post w request s = (Return response_otp_validated, s')
    /\ In (cleared_otp w user_otp) (otps (db s'))
    /\ (forall r, In r (otps (db s')) -> OTP.id r = OTP.id user_otp ->
          OTP.generated_otp r = None)
    /\ (forall u, In u (users (db s')) ->
          CustomUser.id u = CustomUser.id owner ->
          CustomUser.email_verified u = true)
    /\ tokens (db s') = tokens (db s).
Proof.
  intros Hvalid Hrow Hage Howner Hw0 Hw1.
  destruct (filter_single_In _ _ Hrow) as [Hin _].
  destruct (filter_single_In _ _ Howner) as [Hown _].
  eexists. split.
  - apply (validate_otp_fresh_succeeds w request s Hvalid Hrow Hage Howner
             Hw0 Hw1).
  - unfold validated_db, with_users, with_otps.
    cbn [db users otps tokens]. fold (cleared_otp w user_otp).
    rewrite (saved_present OTP.id (cleared_otp w user_otp) user_otp
               (otps (db s)) Hin eq_refl).
    rewrite (saved_present CustomUser.id
               (CustomUser.touched (now w)
                  (CustomUser.with_email_verified true owner))
               owner (users (db s)) Hown eq_refl).
    split; [|split; [|split; [|reflexivity]]].
    + apply (replace_pk_has OTP.id _ user_otp); [exact Hin|reflexivity].
    + intros r Hr Hid.
      rewrite (replace_pk_In OTP.id (cleared_otp w user_otp) r _ Hr Hid).
      reflexivity.
    + intros u Hu Hid.
      rewrite (replace_pk_In CustomUser.id
                 (CustomUser.touched (now w)
                    (CustomUser.with_email_verified true owner))
                 u _ Hu Hid).
      reflexivity.
Qed.

(** The witness runs exactly five minutes after the record was saved. *)
Lemma validate_otp_success_effects_witness :
  exists s',
    ValidateOTPView_post (sample_world 900000000 no_fault None)
      (request_of [("otp", VInt 123456)]) pair_store
    = (Return response_otp_validated, s')
    /\ In (cleared_otp (sample_world 900000000 no_fault None) ada_otp)
          (otps (db s'))
    /\ (forall r, In r (otps (db s')) -> OTP.id r = 3 ->
          OTP.generated_otp r = None)
    /\ (forall u, In u (users (db s')) -> CustomUser.id u = 1 ->
          CustomUser.email_verified u = true)
    /\ tokens (db s') = [bob_token; ada_token].
Proof.
  apply (validate_otp_success_effects (sample_world 900000000 no_fault None)
           (request_of [("otp", VInt 123456)]) (otp := 123456) pair_store
           (user_otp := ada_otp) (owner := ada));
    try reflexivity; simpl; lia.
Defined.

(** X23.  The password is one-time: after a successful validation of a
    value held by one record only, presenting the same value again is
    answered 404 "Invalid OTP", in any later world. *)
Theorem validate_otp_one_time (w : World) (request : Request.t) (otp : Z)
    (s : store) (user_otp : OTP.t) (owner : CustomUser.t) :
  OTPSerializer (Request.data request) = Valid otp ->
  filter (has_generated_otp otp) (otps (db s)) = [user_otp] ->
  now w - OTP.updated_at user_otp <= 5 * 60 * 1000000 ->
  filter (fun u => CustomUser.id u =? OTP.user_id user_otp) (users (db s))
    = [owner] ->
  db_fault w (writes s) = false ->
  db_fault w (S (writes s)) = false ->
  exists s',
    ValidateOTPView_post w request s = (Return response_otp_validated, s')
    /\ forall w' request',
         OTPSerializer (Request.data request') = Valid otp ->
         ValidateOTPView_post w' request' s'
         = (Return response_invalid_otp, s').
Proof.
  intros Hvalid Hrow Hage Howner Hw0 Hw1.
  destruct (filter_single_In _ _ Hrow) as [Hin _].
  eexists. split.
  - apply (validate_otp_fresh_succeeds w request s Hvalid Hrow Hage Howner
             Hw0 Hw1).
  - intros w' request' Hvalid'.
    unfold ValidateOTPView_post. rewrite Hvalid'.
    unfold try_except_DoesNotExist, OTP_get_by_generated_otp, bind, query,
      lift, objects_get.
    unfold validated_db, with_users, with_otps.
    cbn [db users otps tokens]. fold (cleared_otp w user_otp).
    rewrite (saved_present OTP.id (cleared_otp w user_otp) user_otp
               (otps (db s)) Hin eq_refl).
    rewrite (@filter_replace_pk_none _ (has_generated_otp otp) OTP.id
               user_otp (cleared_otp w user_otp) (otps (db s)) Hrow eq_refl
               eq_refl).
    reflexivity.
Qed.

Lemma validate_otp_one_time_witness :
  exists s',
    ValidateOTPView_post (sample_world t_fresh no_fault None)
      (request_of [("otp", VInt 123456)]) pair_store
    = (Return response_otp_validated, s')
    /\ forall w' request',
         OTPSerializer (Request.data request') = Valid 123456 ->
         ValidateOTPView_post w' request' s'
         = (Return response_invalid_otp, s').
Proof.
  apply (validate_otp_one_time (sample_world t_fresh no_fault None)
           (request_of [("otp", VInt 123456)]) (otp := 123456) pair_store
           (user_otp := ada_otp) (owner := ada));
    try reflexivity; simpl; unfold t_fresh; lia.
Defined.

(** X24.  The lookup is by value over all records: when two or more records
    hold the submitted value, [OTP.objects.get] raises
    [MultipleObjectsReturned], which the view does not catch; the request
    fails, nobody is verified and nothing is written. *)
Theorem validate_otp_collision (w : World) (request : Request.t) (otp : Z)
    (s : store) (r1 r2 : OTP.t) (rest : list OTP.t) :
  OTPSerializer (Request.data request) = Valid otp ->
  filter (has_generated_otp otp) (otps (db s)) = r1 :: r2 :: rest ->
  ValidateOTPView_post w request s = (Raise MultipleObjectsReturned, s).
Proof.
  intros Hvalid Hrows.
  unfold ValidateOTPView_post. rewrite Hvalid.
  unfold try_except_DoesNotExist, OTP_get_by_generated_otp, bind, query, lift,
    objects_get.
  rewrite Hrows. reflexivity.
Qed.

Lemma validate_otp_collision_witness :
  ValidateOTPView_post (sample_world t_fresh no_fault None)
    (request_of [("otp", VInt 123456)]) collision_store
  = (Raise MultipleObjectsReturned, collision_store).
Proof.
  apply (validate_otp_collision (sample_world t_fresh no_fault None)
           (request_of [("otp", VInt 123456)]) (otp := 123456) collision_store
           (r1 := ada_otp) (r2 := bob_otp) (rest := []));
    reflexivity.
Defined.

(** X25.  Whatever the request and the outcome of the writes, a validation
    never touches the token table. *)
Theorem validate_otp_keeps_tokens (w : World) (request : Request.t)
    (s : store) :
  tokens (db (snd (ValidateOTPView_post w request s))) = tokens (db s).
Proof.
  unfold ValidateOTPView_post.
  destruct (OTPSerializer (Request.data request)) as [otp|errors];
    [|reflexivity].
  unfold try_except_DoesNotExist, OTP_get_by_generated_otp, bind, query, lift,
    objects_get.
  destruct (filter (has_generated_otp otp) (otps (db s)))
    as [|user_otp [|other rest]]; [reflexivity| |reflexivity].
  destruct (now w - OTP.updated_at user_otp >? timedelta_minutes 5);
    [reflexivity|].
  unfold atomic, OTP_related_user, CustomUser_save, OTP_save, bind, query,
    lift, execute, ret, objects_get.
  destruct (option_Z_eqb (OTP.generated_otp user_otp) (Some otp)); simpl.
  - destruct (db_fault w (writes s)); simpl; [reflexivity|].
    destruct (filter _ (users (db s))) as [|owner [|other rest]]; simpl;
      try reflexivity.
    destruct (db_fault w (S (writes s))); reflexivity.
  - destruct (filter _ (users (db s))) as [|owner [|other rest]]; simpl;
      try reflexivity.
    destruct (db_fault w (writes s)); reflexivity.
Qed.

(** ** Creating a user, then signing in *)

(** X26.  A user created by [create_user] can sign in: when the keyword
    arguments name settable columns with values of their type and leave
    [is_active] at its default, no stored user had the normalized email,
    and the password checks against the hash it was stored under, a sign-in
    with the normalized email and the same password is answered 200 with
    the tokens of the new user. *)
Theorem create_user_then_signin (w w' : World) (email password : string)
    (extra_fields : dict) (request : Request.t) (s : store) :
  email <> "" ->
  extra_fields_ok extra_fields = true ->
  db_fault w (writes s) = false ->
  (forall u, In u (users (db s)) ->
             CustomUser.email u <> normalize_email w email) ->
  dict_get "is_active" extra_fields = None ->
  check_password w' password (make_password w password) = true ->
  SignInSerializer (Request.data request)
    = Valid (normalize_email w email, password) ->
  db_fault w' (S (writes s)) = false ->
  db_fault w' (S (S (writes s))) = false ->
  exists u s1 s2,
    create_user w email password extra_fields s = (Return u, s1)
    /\ SignInView_post w' request s1 = (Return (signin_response w' u), s2)
    /\ filter (belongs_to u) (tokens (db s2)) = [signin_token w' u (db s1)].
Proof.
  intros Hemail _ Hw Hfree Hactive Hcheck Hvalid Hw1 Hw2.
  eexists. eexists. eexists. split.
  - apply (create_user_run w password extra_fields s Hemail Hw).
  - split.
    + apply (signin_run w' request _ Hvalid); simpl; try assumption.
      unfold authenticate, bind, query. simpl.
      unfold objects_get. rewrite filter_app. simpl.
      unfold has_email at 2. simpl. rewrite String.eqb_refl.
      rewrite filter_none.
      * simpl. rewrite Hcheck. unfold kw_bool. rewrite Hactive. reflexivity.
      * intros u Hu. unfold has_email. apply String.eqb_neq.
        apply Hfree. exact Hu.
    + simpl. rewrite filter_app, filter_negb_none. simpl.
      unfold belongs_to. simpl. rewrite Z.eqb_refl. reflexivity.
Qed.

Lemma create_user_then_signin_witness :
  exists u s1 s2,
    create_user (sample_world t_fresh no_fault None) "eve@example.com"
      "Pa55word" [("first_name", VStr "Eve")] pair_store = (Return u, s1)
    /\ SignInView_post later_world
         (request_of [("email", VStr "eve@example.com");
                      ("password", VStr "Pa55word")]) s1
       = (Return (signin_response later_world u), s2)
    /\ filter (belongs_to u) (tokens (db s2))
       = [signin_token later_world u (db s1)].
Proof.
  apply (create_user_then_signin (sample_world t_fresh no_fault None)
           later_world (email := "eve@example.com") (password := "Pa55word")
           [("first_name", VStr "Eve")]
           (request_of [("email", VStr "eve@example.com");
                        ("password", VStr "Pa55word")]) pair_store);
    try reflexivity.
  - discriminate.
  - simpl. intros u [Hu|[Hu|[]]]; subst u; simpl; discriminate.
Defined.
